(** * HypeBot: price monitoring and alert decision engine

    A shallow embedding of [config.py], [price_analyzer.py],
    [telegram_alerter.py] and the scheduling half of [telegram_bot.py].

    Python floats are read as real numbers ([R]): sums, quotients, square
    roots and comparisons are the exact ones, so rounding, NaN and the
    infinities are outside this reading.  Where rounding decides, the
    statistics and the trend are also given in binary64, on the floats of
    the kernel.  Instants ([datetime]) and durations ([timedelta]) are
    whole numbers of microseconds, which is the resolution Python gives
    them. *)

From Stdlib Require Import Reals Lra Lia ZArith List Bool.
From Stdlib Require String.
From Corelib Require PrimFloat.
Import ListNotations String.StringSyntax.
Local Open Scope string_scope.

Set Implicit Arguments.

(** ** config.py *)

Module config.
Local Open Scope R_scope.

Definition TARGET_PRICE : R := 41.
Definition STANDARD_DEVIATIONS : R := 2.
Definition UPDATE_INTERVAL_MINUTES : Z := 30.
Definition PRICE_HISTORY_WINDOW : nat := 100.
Definition ALERT_THRESHOLD : R := 7 / 10.

Definition ENABLE_VOICE_MESSAGES : bool := true.
Definition ENABLE_TEXT_ALERTS : bool := true.
Definition ALERT_COOLDOWN_MINUTES : Z := 5.
Definition URGENT_ALERT_COOLDOWN_MINUTES : Z := 1.

Definition CRITICAL_PRICE_THRESHOLD : R := 415 / 10.
Definition STRONG_DOWNTREND_THRESHOLD : R := 85 / 100.
End config.

(** ** Python and numpy primitives used by the analyzer *)

(** Comparisons of floats, as booleans. *)
Definition Rleb (x y : R) : bool := if Rle_dec x y then true else false.
Definition Rltb (x y : R) : bool := if Rlt_dec x y then true else false.
Definition Reqb (x y : R) : bool := if Req_dec_T x y then true else false.

(** The slice [l[-n:]] for a positive [n]: the last [n] items, or all of
    [l] when it has fewer. *)
Definition slice_last (A : Type) (n : nat) (l : list A) : list A :=
  skipn (length l - n) l.

Module np.
Local Open Scope R_scope.

Definition sum (l : list R) : R := fold_right Rplus 0 l.

(** [np.mean]: the sum over the number of items. *)
Definition mean (l : list R) : R := sum l / INR (length l).

(** [np.std] with its default [ddof=0]: the root of the mean squared
    deviation from the mean. *)
Definition std (l : list R) : R :=
  sqrt (mean (map (fun x => Rsqr (x - mean l)) l)).

(** [np.min] and [np.max]; numpy raises on an empty array, which
    [calculate_statistics] never passes (it returns early below 5
    items), and the value given here for it is not used. *)
Definition min (l : list R) : R :=
  match l with
  | [] => 0
  | x :: t => fold_left Rmin t x
  end.

Definition max (l : list R) : R :=
  match l with
  | [] => 0
  | x :: t => fold_left Rmax t x
  end.
End np.

(** ** price_analyzer.py *)

(** The dictionary returned by [calculate_statistics]. *)
Module Stats.
Record t : Type := mk
  { mean : R; std : R; min : R; max : R; current : R }.
End Stats.

(** The labels returned by [get_price_trend]. *)
Inductive Trend : Type :=
| strong_uptrend
| uptrend
| strong_downtrend
| downtrend
| sideways
| insufficient_data.

(** The ['reason'] entry of the dictionary returned by [should_alert]. *)
Inductive Reason : Type :=
| current_price_below_target
| price_within_std_deviations
| high_drop_probability.

(** The dictionary returned by [should_alert] next to its boolean: empty,
    or a reason with the figures that go with it. *)
Inductive AlertInfo : Type :=
| no_info
| below_target_info (current_price target_price : R)
| std_deviations_info (current_price lower_bound std_deviations : R)
| drop_probability_info (current_price drop_probability threshold : R).

Definition reason (info : AlertInfo) : option Reason :=
  match info with
  | no_info => None
  | below_target_info _ _ => Some current_price_below_target
  | std_deviations_info _ _ _ => Some price_within_std_deviations
  | drop_probability_info _ _ _ => Some high_drop_probability
  end.

(** The dictionary returned by [get_analysis_summary]. *)
Module Analysis.
Record t : Type := mk
  { current_price : R;
    mean_price : R;
    std_deviation : R;
    price_range_min : R;
    price_range_max : R;
    trend : Trend;
    drop_probability : R;
    target_price : R;
    should_alert : bool;
    is_urgent : bool;
    alert_info : AlertInfo;
    price_history_length : nat }.
End Analysis.

(** The two library functions behind the probability: [scipy.stats.norm.cdf]
    when scipy can be imported, [math.erf] otherwise. *)
Record MathLib : Type :=
  { scipy_importable : bool;
    norm_cdf : R -> R;
    math_erf : R -> R }.

Module PriceAnalyzer.
Local Open Scope R_scope.

Record t : Type := mk
  { target_price : R;
    std_deviations : R;
    price_history : list R;
    alert_sent : bool }.

(** [__init__] *)
Definition init (target_price std_deviations : R) : t :=
  {| target_price := target_price;
     std_deviations := std_deviations;
     price_history := [];
     alert_sent := false |}.

Definition default : t :=
  init config.TARGET_PRICE config.STANDARD_DEVIATIONS.

Definition set_price_history (self : t) (h : list R) : t :=
  {| target_price := target_price self;
     std_deviations := std_deviations self;
     price_history := h;
     alert_sent := alert_sent self |}.

Definition add_price (self : t) (price : R) : t :=
  let self := set_price_history self (price_history self ++ [price]) in
  if (100 <? length (price_history self))%nat
  then set_price_history self (slice_last 100 (price_history self))
  else self.

Definition calculate_statistics (self : t) : Stats.t :=
  if (length (price_history self) <? 5)%nat
  then Stats.mk 0 0 0 0 0
  else
    let prices := price_history self in
    Stats.mk (np.mean prices) (np.std prices) (np.min prices)
             (np.max prices) (last prices 0).

Definition get_price_trend (self : t) : Trend :=
  if (length (price_history self) <? 10)%nat then insufficient_data
  else
    let recent_prices := slice_last 10 (price_history self) in
    if (length recent_prices <? 2)%nat then insufficient_data
    else
      let sma_5 :=
        if (5 <=? length recent_prices)%nat
        then np.mean (slice_last 5 recent_prices)
        else np.mean recent_prices in
      let sma_10 := np.mean recent_prices in
      let current_price := last recent_prices 0 in
      if Rltb sma_5 current_price && Rltb sma_10 sma_5
      then strong_uptrend
      else if Rltb sma_5 current_price then uptrend
      else if Rltb current_price sma_5 && Rltb sma_5 sma_10
      then strong_downtrend
      else if Rltb current_price sma_5 then downtrend
      else sideways.

Definition Trend_eqb (a b : Trend) : bool :=
  match a, b with
  | strong_uptrend, strong_uptrend
  | uptrend, uptrend
  | strong_downtrend, strong_downtrend
  | downtrend, downtrend
  | sideways, sideways
  | insufficient_data, insufficient_data => true
  | _, _ => false
  end.

Section WithMathLib.
Variable lib : MathLib.

Definition predict_price_drop_probability (self : t) : R :=
  if (length (price_history self) <? 10)%nat then 0
  else
    let stats := calculate_statistics self in
    let mean_price := Stats.mean stats in
    let std_price := Stats.std stats in
    if Reqb std_price 0 then 0
    else
      let z_score := (target_price self - mean_price) / std_price in
      if scipy_importable lib
      then norm_cdf lib z_score
      else (1 / 2) * (1 + math_erf lib (z_score / sqrt 2)).

Definition should_alert (self : t) : bool * AlertInfo :=
  if (length (price_history self) <? 5)%nat then (false, no_info)
  else
    let stats := calculate_statistics self in
    let current_price := Stats.current stats in
    if Rleb current_price (target_price self)
    then (true, below_target_info current_price (target_price self))
    else
      let lower_bound :=
        Stats.mean stats - std_deviations self * Stats.std stats in
      if Rleb current_price lower_bound
      then (true, std_deviations_info current_price lower_bound
                                      (std_deviations self))
      else
        let drop_probability := predict_price_drop_probability self in
        if Rleb config.ALERT_THRESHOLD drop_probability
        then (true, drop_probability_info current_price drop_probability
                                          config.ALERT_THRESHOLD)
        else (false, no_info).

Definition is_urgent_alert (self : t) : bool :=
  if (length (price_history self) <? 5)%nat then false
  else
    let stats := calculate_statistics self in
    let current_price := Stats.current stats in
    let drop_probability := predict_price_drop_probability self in
    let trend := get_price_trend self in
    let is_critical_price :=
      Rleb current_price config.CRITICAL_PRICE_THRESHOLD in
    let is_strong_downtrend :=
      Trend_eqb trend strong_downtrend
      && Rleb config.STRONG_DOWNTREND_THRESHOLD drop_probability in
    let is_very_close :=
      Rleb current_price (config.TARGET_PRICE + 5 / 10) in
    is_critical_price || is_strong_downtrend || is_very_close.

Definition get_analysis_summary (self : t) : Analysis.t :=
  let stats := calculate_statistics self in
  let trend := get_price_trend self in
  let drop_probability := predict_price_drop_probability self in
  let '(should_alert, alert_info) := should_alert self in
  let is_urgent := is_urgent_alert self in
  {| Analysis.current_price := Stats.current stats;
     Analysis.mean_price := Stats.mean stats;
     Analysis.std_deviation := Stats.std stats;
     Analysis.price_range_min := Stats.min stats;
     Analysis.price_range_max := Stats.max stats;
     Analysis.trend := trend;
     Analysis.drop_probability := drop_probability;
     Analysis.target_price := target_price self;
     Analysis.should_alert := should_alert;
     Analysis.is_urgent := is_urgent;
     Analysis.alert_info := alert_info;
     Analysis.price_history_length := length (price_history self) |}.
End WithMathLib.
End PriceAnalyzer.

(** ** The outside world *)

(** An instant read from [datetime.now()] and a [timedelta], both in
    microseconds. *)
Definition datetime : Type := Z.
Definition timedelta : Type := Z.

Definition timedelta_minutes (m : Z) : timedelta := (m * 60000000)%Z.

(** What the world answers during one call of [send_voice_alert] or
    [send_text_alert]: the clock as [can_send_alert] reads it, and how the
    [try] block ends, either with the message delivered and the clock
    read again ([Some] of that reading), or with an exception ([None]). *)
Record Attempt : Type :=
  { now_at_check : datetime;
    delivery : option datetime }.

(** What the bot does to the world: messages handed to Telegram, lines
    written to the log, and the sleeps of the monitoring loop (in
    seconds).  A message stands for its text, and a log line is kept
    without the figures and exception texts formatted into it. *)
Inductive Event : Type :=
| send_voice (is_urgent : bool)
| send_alert_message (is_urgent : bool)
| send_status_message (analysis : Analysis.t)
| log_info (line : String.string)
| log_warning (line : String.string)
| log_error (line : String.string)
| asyncio_sleep (seconds : Z).

(** ** telegram_alerter.py *)

Module TelegramAlerter.
Local Open Scope Z_scope.
Local Open Scope string_scope.

(** [tts_engine] is left out: [__init__] always sets it, and a send that
    breaks on it ends the [try] block with an exception like any other. *)
Record t : Type := mk { last_alert_time : option datetime }.

Definition init : t := {| last_alert_time := None |}.

Definition can_send_alert (self : t) (is_urgent : bool) (now : datetime)
  : bool :=
  if negb config.ENABLE_VOICE_MESSAGES && negb config.ENABLE_TEXT_ALERTS
  then false
  else
    match last_alert_time self with
    | None => true
    | Some last =>
        let time_since_last_alert := now - last in
        let cooldown_minutes :=
          if is_urgent then config.URGENT_ALERT_COOLDOWN_MINUTES
          else config.ALERT_COOLDOWN_MINUTES in
        timedelta_minutes cooldown_minutes <=? time_since_last_alert
    end.

Definition send_voice_alert (self : t) (is_urgent : bool) (w : Attempt)
  : bool * t * list Event :=
  if negb config.ENABLE_VOICE_MESSAGES
     || negb (can_send_alert self is_urgent (now_at_check w))
  then (false, self, [])
  else
    match delivery w with
    | Some now =>
        (true, {| last_alert_time := Some now |},
         [send_voice is_urgent; log_info "Voice alert sent successfully"])
    | None => (false, self, [log_error "Failed to send voice alert"])
    end.

Definition send_text_alert (self : t) (is_urgent : bool) (w : Attempt)
  : bool * t * list Event :=
  if negb config.ENABLE_TEXT_ALERTS
     || negb (can_send_alert self is_urgent (now_at_check w))
  then (false, self, [])
  else
    match delivery w with
    | Some now =>
        (true, {| last_alert_time := Some now |},
         [send_alert_message is_urgent;
          log_info "Text alert sent successfully"])
    | None => (false, self, [log_error "Failed to send text alert"])
    end.
End TelegramAlerter.

(** ** telegram_bot.py *)

(** Python's truth value of [TELEGRAM_CHAT_ID], which [os.getenv] leaves
    [None] or a string. *)
Definition truthy (s : option String.string) : bool :=
  match s with
  | None => false
  | Some s => negb (String.eqb s String.EmptyString)
  end.

(** The world's answers during one [send_alert]. *)
Record AlertIO : Type :=
  { voice : Attempt;
    text : Attempt }.

(** The world's answers during one [send_regular_update]: the price
    source's reply ([None] when the fetch fails), the answers to the alert
    if one is sent, and whether the status message goes through. *)
Record CycleIO : Type :=
  { fetched : option R;
    alert_io : AlertIO;
    status_delivered : bool }.

Module HypeBot.
Local Open Scope string_scope.

(** [hyperliquid_client] holds no state of its own: what it fetches in a
    cycle is an answer of the world ([fetched]). *)
Record t : Type := mk
  { price_analyzer : PriceAnalyzer.t;
    telegram_alerter : TelegramAlerter.t;
    last_alert_time : option datetime;
    is_running : bool }.

Definition init : t :=
  {| price_analyzer := PriceAnalyzer.default;
     telegram_alerter := TelegramAlerter.init;
     last_alert_time := None;
     is_running := false |}.

Definition set_price_analyzer (self : t) (a : PriceAnalyzer.t) : t :=
  {| price_analyzer := a;
     telegram_alerter := telegram_alerter self;
     last_alert_time := last_alert_time self;
     is_running := is_running self |}.

Definition set_telegram_alerter (self : t) (a : TelegramAlerter.t) : t :=
  {| price_analyzer := price_analyzer self;
     telegram_alerter := a;
     last_alert_time := last_alert_time self;
     is_running := is_running self |}.

Definition set_is_running (self : t) (b : bool) : t :=
  {| price_analyzer := price_analyzer self;
     telegram_alerter := telegram_alerter self;
     last_alert_time := last_alert_time self;
     is_running := b |}.

Section WithEnvironment.
Variable TELEGRAM_CHAT_ID : option String.string.
Variable lib : MathLib.

Definition send_alert (self : t) (analysis : Analysis.t) (io : AlertIO)
  : t * list Event :=
  if negb (truthy TELEGRAM_CHAT_ID)
  then (self, [log_error "TELEGRAM_CHAT_ID not configured"])
  else
    let is_urgent := Analysis.is_urgent analysis in
    let '(voice_sent, alerter, voice_events) :=
      TelegramAlerter.send_voice_alert
        (telegram_alerter self) is_urgent (voice io) in
    let self := set_telegram_alerter self alerter in
    let voice_log :=
      if voice_sent
      then log_info (if is_urgent
                     then "CRITICAL voice alert sent successfully"
                     else "Regular voice alert sent successfully")
      else log_info "Voice alert skipped (cooldown or disabled)" in
    let '(text_sent, alerter, text_events) :=
      TelegramAlerter.send_text_alert
        (telegram_alerter self) is_urgent (text io) in
    let self := set_telegram_alerter self alerter in
    let text_log :=
      if text_sent
      then log_info (if is_urgent
                     then "CRITICAL text alert sent successfully"
                     else "Regular text alert sent successfully")
      else log_info "Text alert skipped (cooldown or disabled)" in
    (self, voice_events ++ [voice_log] ++ text_events ++ [text_log]).

Definition send_regular_update (self : t) (io : CycleIO)
  : t * list Event :=
  if negb (truthy TELEGRAM_CHAT_ID) then (self, [])
  else
    match fetched io with
    | None =>
        (self, [log_warning "Unable to fetch price for regular update"])
    | Some current_price =>
        let self :=
          set_price_analyzer
            self
            (PriceAnalyzer.add_price (price_analyzer self) current_price)
        in
        let analysis :=
          PriceAnalyzer.get_analysis_summary lib (price_analyzer self) in
        let '(self, alert_events) :=
          if Analysis.should_alert analysis
          then send_alert self analysis (alert_io io)
          else (self, []) in
        if status_delivered io
        then (self,
              alert_events
                ++ [send_status_message analysis;
                    log_info "Regular update sent"])
        else (self,
              alert_events ++ [log_error "Error sending regular update"])
    end.

(** The [while self.is_running] loop of [start_monitoring], run for as
    many rounds as there are answers in [cycles].  Its [except] branch is
    not reached, [send_regular_update] having caught what can be raised. *)
Fixpoint monitoring_loop (self : t) (cycles : list CycleIO)
  : t * list Event :=
  match cycles with
  | [] => (self, [])
  | io :: cycles =>
      if is_running self
      then
        let '(self, update_events) := send_regular_update self io in
        let '(self, later_events) := monitoring_loop self cycles in
        (self,
         update_events
           ++ asyncio_sleep (config.UPDATE_INTERVAL_MINUTES * 60)
           :: later_events)
      else (self, [])
  end.

Definition start_monitoring (self : t) (cycles : list CycleIO)
  : t * list Event :=
  let self := set_is_running self true in
  let '(self, events) := monitoring_loop self cycles in
  (self,
   log_info "Starting price monitoring with frequent updates..."
     :: events).
End WithEnvironment.
End HypeBot.

(** ** Runs of the analyzer *)

(** All the prices of [prices] added in turn. *)
Definition add_prices (self : PriceAnalyzer.t) (prices : list R)
  : PriceAnalyzer.t :=
  fold_left PriceAnalyzer.add_price prices self.

(** What a history that refuses bad samples would do: a price that is
    not positive leaves it as it was. *)
Definition refuses_non_positive_prices : Prop :=
  forall (self : PriceAnalyzer.t) (price : R),
    (price <= 0)%R ->
    PriceAnalyzer.price_history (PriceAnalyzer.add_price self price)
    = PriceAnalyzer.price_history self.

(** Five prices of 42 and then one of 40, given to a new analyzer. *)
Definition drop_below_target : PriceAnalyzer.t :=
  add_prices PriceAnalyzer.default [42; 42; 42; 42; 42; 40]%R.

(** Nine prices of 10 and then one of 9. *)
Definition falling_tail : PriceAnalyzer.t :=
  add_prices PriceAnalyzer.default
             [10; 10; 10; 10; 10; 10; 10; 10; 10; 9]%R.

(** The same price [n] times over. *)
Definition flat_series (price : R) (n : nat) : PriceAnalyzer.t :=
  add_prices PriceAnalyzer.default (repeat price n).

(** The standard normal cumulative distribution function, written with
    the error function. *)
Definition Phi (erf : R -> R) (z : R) : R :=
  (1 / 2 * (1 + erf (z / sqrt 2)))%R.

(** A library to run the analyzer with: an odd, increasing function with
    values between -1 and 1 in the place of [math.erf], and [norm.cdf]
    built on it. *)
Definition sigmoid (x : R) : R := (x / (1 + Rabs x))%R.

Definition sample_lib : MathLib :=
  {| scipy_importable := true;
     norm_cdf := Phi sigmoid;
     math_erf := sigmoid |}.

(** The cooldown that [can_send_alert] applies. *)
Definition cooldown (is_urgent : bool) : timedelta :=
  timedelta_minutes
    (if is_urgent then config.URGENT_ALERT_COOLDOWN_MINUTES
     else config.ALERT_COOLDOWN_MINUTES).

(** How many alerts, spoken or written, a run of events delivered. *)
Definition is_alert (e : Event) : bool :=
  match e with
  | send_voice _ | send_alert_message _ => true
  | _ => false
  end.

Definition alerts_delivered (events : list Event) : nat :=
  length (filter is_alert events).


(** A configured chat, an alert whose voice message is delivered two
    seconds after the gate was asked and whose text alert is tried ten
    microseconds later, and a cycle whose fetch fails. *)
Definition sample_chat_id : option String.string := Some "123456".

Definition prompt_alert : AlertIO :=
  {| voice := {| now_at_check := 0%Z; delivery := Some 2000000%Z |};
     text := {| now_at_check := 2000010%Z; delivery := Some 2500000%Z |} |}.

Definition failed_cycle : CycleIO :=
  {| fetched := None;
     alert_io := prompt_alert;
     status_delivered := true |}.

(** ** Further runs of the analyzer *)

(** Prices moving between 41 and 41.5 and ending on their mean, 41.25. *)
Definition hovering : PriceAnalyzer.t :=
  add_prices PriceAnalyzer.default [41; 83 / 2; 41; 83 / 2; 165 / 4]%R.

(** Nine prices of 40 and then one of 41.5. *)
Definition late_rebound : PriceAnalyzer.t :=
  add_prices PriceAnalyzer.default
             [40; 40; 40; 40; 40; 40; 40; 40; 40; 83 / 2]%R.

(** ** The commands of the bot and the rest of the alerter *)

(** The dictionary returned by [get_alert_status]; [last_alert_time] is
    kept as the instant, not as its ISO text. *)
Module AlertStatus.
Record t : Type := mk
  { voice_enabled : bool;
    text_enabled : bool;
    last_alert_time : option datetime;
    can_send_alert : bool;
    cooldown_minutes : Z;
    tts_configured : bool }.
End AlertStatus.

(** [TelegramAlerter.get_alert_status], with the clock as
    [can_send_alert] reads it. *)
Definition get_alert_status (self : TelegramAlerter.t) (now : datetime)
  : AlertStatus.t :=
  {| AlertStatus.voice_enabled := config.ENABLE_VOICE_MESSAGES;
     AlertStatus.text_enabled := config.ENABLE_TEXT_ALERTS;
     AlertStatus.last_alert_time := TelegramAlerter.last_alert_time self;
     AlertStatus.can_send_alert :=
       TelegramAlerter.can_send_alert self false now;
     AlertStatus.cooldown_minutes := config.ALERT_COOLDOWN_MINUTES;
     AlertStatus.tts_configured := true |}.

(** The texts a command answers with, each standing for the message of
    the source, and what a command does besides the events of the bot:
    answering, and sending the test voice message. *)
Inductive Reply : Type :=
| unable_to_fetch_reply
| status_reply (analysis : Analysis.t)
| error_fetching_status_reply
| tts_not_configured_reply
| voice_disabled_reply
| voice_cooldown_reply (cooldown_minutes : Z)
| sending_test_voice_reply
| test_voice_sent_reply
| test_voice_failed_reply
| error_test_voice_reply.

Inductive CommandEvent : Type :=
| reply_text (reply : Reply)
| send_test_voice
| logged (e : Event).

(** [TelegramAlerter.test_voice_message]: the alerter is not consulted
    and not changed; [delivered] tells whether the [try] block got to its
    end. *)
Definition test_voice_message (delivered : bool)
  : bool * list CommandEvent :=
  if delivered
  then (true,
        [send_test_voice;
         logged (log_info "Test voice message sent successfully")])
  else (false, [logged (log_error "Failed to send test voice message")]).

(** The world's answers during one command: the clock, the price source,
    whether the test voice message goes through, and whether each
    [reply_text] in turn goes through ([true]) or raises; replies beyond
    the list go through. *)
Record CommandIO : Type :=
  { command_now : datetime;
    command_fetched : option R;
    test_voice_delivered : bool;
    replies_delivered : list bool }.

(** A [try] block of replies and other steps, run until a reply raises:
    the events up to there, whether a reply raised, and the answers
    left. *)
Fixpoint run_steps (steps : list CommandEvent) (answers : list bool)
  : list CommandEvent * bool * list bool :=
  match steps with
  | [] => ([], false, answers)
  | reply_text r :: steps =>
      match answers with
      | false :: answers => ([], true, answers)
      | true :: answers =>
          let '(events, raised, answers) := run_steps steps answers in
          (reply_text r :: events, raised, answers)
      | [] =>
          let '(events, raised, answers) := run_steps steps [] in
          (reply_text r :: events, raised, answers)
      end
  | step :: steps =>
      let '(events, raised, answers) := run_steps steps answers in
      (step :: events, raised, answers)
  end.

(** The [except] clause shared by the commands: the error is logged and
    the error text is sent; when that reply raises too, the exception
    leaves the command ([true] in the result). *)
Definition handle_error
  (line : String.string) (reply : Reply)
  (events : list CommandEvent) (raised : bool) (answers : list bool)
  : list CommandEvent * bool :=
  if raised
  then
    let '(error_events, raised, _) :=
      run_steps [reply_text reply] answers in
    (events ++ logged (log_error line) :: error_events, raised)
  else (events, false).

Module Commands.
Section WithLibrary.
Variable lib : MathLib.

(** [HypeBot.status_command] *)
Definition status_command (self : HypeBot.t) (io : CommandIO)
  : HypeBot.t * list CommandEvent * bool :=
  match command_fetched io with
  | None =>
      let '(events, raised, answers) :=
        run_steps [reply_text unable_to_fetch_reply]
                  (replies_delivered io) in
      let '(events, raised) :=
        handle_error "Error in status command"
                     error_fetching_status_reply events raised answers in
      (self, events, raised)
  | Some current_price =>
      let self :=
        HypeBot.set_price_analyzer
          self
          (PriceAnalyzer.add_price
             (HypeBot.price_analyzer self) current_price) in
      let analysis :=
        PriceAnalyzer.get_analysis_summary
          lib (HypeBot.price_analyzer self) in
      let '(events, raised, answers) :=
        run_steps [reply_text (status_reply analysis)]
                  (replies_delivered io) in
      let '(events, raised) :=
        handle_error "Error in status command"
                     error_fetching_status_reply events raised answers in
      (self, events, raised)
  end.

(** [HypeBot.test_voice_command] *)
Definition test_voice_command (self : HypeBot.t) (io : CommandIO)
  : HypeBot.t * list CommandEvent * bool :=
  let alert_status :=
    get_alert_status (HypeBot.telegram_alerter self) (command_now io) in
  let steps :=
    if negb (AlertStatus.tts_configured alert_status)
    then [reply_text tts_not_configured_reply]
    else if negb (AlertStatus.voice_enabled alert_status)
    then [reply_text voice_disabled_reply]
    else if negb (AlertStatus.can_send_alert alert_status)
    then [reply_text
            (voice_cooldown_reply
               (AlertStatus.cooldown_minutes alert_status))]
    else
      let '(voice_success, voice_events) :=
        test_voice_message (test_voice_delivered io) in
      reply_text sending_test_voice_reply
        :: voice_events
        ++ [reply_text (if voice_success then test_voice_sent_reply
                        else test_voice_failed_reply)] in
  let '(events, raised, answers) :=
    run_steps steps (replies_delivered io) in
  let '(events, raised) :=
    handle_error "Error in test voice command"
                 error_test_voice_reply events raised answers in
  (self, events, raised).
End WithLibrary.
End Commands.

(** The prices that the fetches of a run of cycles brought back. *)
Definition fetched_prices (cycles : list CycleIO) : list R :=
  flat_map (fun io => match fetched io with
                      | Some price => [price]
                      | None => []
                      end)
           cycles.

Definition is_sleep (e : Event) : bool :=
  match e with
  | asyncio_sleep _ => true
  | _ => false
  end.

Definition is_status_message (e : Event) : bool :=
  match e with
  | send_status_message _ => true
  | _ => false
  end.

(** How many status messages a run of events delivered. *)
Definition status_messages_sent (events : list Event) : nat :=
  length (filter is_status_message events).

(** A cycle that fetches [price], with prompt answers of the channels,
    and a morning of three cycles, the second of which fails to fetch. *)
Definition prompt_cycle (price : R) : CycleIO :=
  {| fetched := Some price;
     alert_io := prompt_alert;
     status_delivered := true |}.

Definition sample_cycles : list CycleIO :=
  [prompt_cycle 42; failed_cycle; prompt_cycle 40].

(** A bot whose alerter was stamped at instant 0, an alert whose voice
    attempt raises while its text message goes through, and a command
    received at instant 0 with a price of 40 to fetch and Telegram
    taking every message. *)
Definition stamped_bot : HypeBot.t :=
  HypeBot.set_telegram_alerter
    HypeBot.init {| TelegramAlerter.last_alert_time := Some 0%Z |}.

Definition voice_down_alert : AlertIO :=
  {| voice := {| now_at_check := 0%Z; delivery := None |};
     text := {| now_at_check := 10%Z; delivery := Some 500000%Z |} |}.

Definition prompt_command : CommandIO :=
  {| command_now := 0%Z;
     command_fetched := Some 40%R;
     test_voice_delivered := true;
     replies_delivered := [] |}.

(** ** hyperliquid_client.py *)

(** The values [response.json()] gives back. *)
#[warnings="-register-all"]
Inductive json : Type :=
| JNull
| JBool (b : bool)
| JNum (x : R)
| JStr (s : String.string)
| JArr (items : list json)
| JObj (entries : list (String.string * json)).

(** Python on these values; [None] stands for a raised exception. *)
Module py.

(** [d.get(key)] and [d[key]] on a dict. *)
Fixpoint lookup (key : String.string)
         (entries : list (String.string * json)) : option json :=
  match entries with
  | [] => None
  | (k, v) :: entries =>
      if String.eqb k key then Some v else lookup key entries
  end.

(** The truth value of [v]. *)
Definition truth (v : json) : bool :=
  match v with
  | JNull => false
  | JBool b => b
  | JNum x => negb (Reqb x 0)
  | JStr s => negb (String.eqb s String.EmptyString)
  | JArr items => match items with [] => false | _ => true end
  | JObj entries => match entries with [] => false | _ => true end
  end.

(** [v[i]] for an index [i] that is not negative: a list and a string
    can be indexed within their bounds, a string giving a string of one
    character; a dict of a JSON reply has no integer key, and nothing
    else can be subscripted. *)
Definition index (v : json) (i : nat) : option json :=
  match v with
  | JArr items => nth_error items i
  | JStr s =>
      match String.get i s with
      | Some c => Some (JStr (String.String c String.EmptyString))
      | None => None
      end
  | _ => None
  end.

(** What [for asset in v] runs through: the items of a list, the
    characters of a string, the keys of a dict; nothing else can be
    iterated. *)
Definition iterate (v : json) : option (list json) :=
  match v with
  | JArr items => Some items
  | JStr s =>
      Some (map (fun c => JStr (String.String c String.EmptyString))
                (String.list_ascii_of_string s))
  | JObj entries => Some (map (fun kv => JStr (fst kv)) entries)
  | _ => None
  end.

Section Float.
(** [float(s)] on a string, [None] when the string is no number. *)
Variable float_of_str : String.string -> option R.

(** [float(v)] *)
Definition float (v : json) : option R :=
  match v with
  | JNum x => Some x
  | JBool b => Some (if b then 1 else 0)%R
  | JStr s => float_of_str s
  | _ => None
  end.
End Float.
End py.

Module HyperliquidClient.
Section WithFloat.
Variable float_of_str : String.string -> option R.

(** The [for] loop of [get_asset_price] over the universe: [None] when
    an item has no [get] (it is no dict), else the first item whose name
    is [asset_name], if there is one. *)
Fixpoint find_asset (asset_name : String.string) (universe : list json)
  : option (option json) :=
  match universe with
  | [] => Some None
  | asset :: universe =>
      match asset with
      | JObj entries =>
          match py.lookup "name" entries with
          | Some (JStr name) =>
              if String.eqb name asset_name then Some (Some asset)
              else find_asset asset_name universe
          | _ => find_asset asset_name universe
          end
      | _ => None
      end
  end.

(** The mid price read from the reply to the order book request.  A
    reply that is no dict ends in [None] whichever way it goes: it is
    falsy, or the test ['levels' in price_data] fails or raises, or
    [price_data['levels']] raises.  Likewise for levels that are no list:
    they are falsy, or have no length, or their item 0 is missing or has
    no item 1. *)
Definition mid_price (price_data : json) : option R :=
  match price_data with
  | JObj entries =>
      match py.lookup "levels" entries with
      | Some (JArr (first :: _)) =>
          if py.truth first
          then
            match py.index first 0 with
            | None => None
            | Some bid =>
                match py.float float_of_str bid with
                | None => None
                | Some best_bid =>
                    match py.index first 1 with
                    | None => None
                    | Some ask =>
                        match py.float float_of_str ask with
                        | None => None
                        | Some best_ask =>
                            if Rltb 0 best_bid && Rltb 0 best_ask
                            then Some ((best_bid + best_ask) / 2)%R
                            else None
                        end
                    end
                end
            end
          else None
      | _ => None
      end
  | _ => None
  end.

(** [get_asset_price]: [meta_response] and [price_response] are the
    decoded replies to the two requests, [None] for a request that
    raises (no connection, an error status, a body that is no JSON); the
    second request is made only when the asset was found.  Every
    exception ends in [None], as the [except] clause has it. *)
Definition get_asset_price
  (asset_name : String.string)
  (meta_response price_response : option json) : option R :=
  match meta_response with
  | Some (JObj entries) =>
      let universe :=
        match py.lookup "universe" entries with
        | Some universe => universe
        | None => JArr []
        end in
      match py.iterate universe with
      | None => None
      | Some assets =>
          match find_asset asset_name assets with
          | Some (Some asset_info) =>
              match price_response with
              | Some price_data => mid_price price_data
              | None => None
              end
          | _ => None
          end
      end
  | _ => None
  end.

(** [get_price_history]: [answers i] are the replies to the two requests
    of round [i]; the sleeps between the rounds are left out. *)
Definition get_price_history
  (asset_name : String.string) (limit : Z)
  (answers : nat -> option json * option json) : list R :=
  flat_map
    (fun i =>
       match get_asset_price asset_name
                             (fst (answers i)) (snd (answers i)) with
       | Some price => if Reqb price 0 then [] else [price]
       | None => []
       end)
    (seq 0 (Z.to_nat (Z.min limit 10))).
End WithFloat.
End HyperliquidClient.

(** A universe listing BTC and SOL, and an order book whose first level
    holds 41 and 42. *)
Definition sample_meta : json :=
  JObj [("universe",
         JArr [JObj [("name", JStr "BTC")]; JObj [("name", JStr "SOL")]])].

Definition sample_book : json :=
  JObj [("levels", JArr [JArr [JNum 41; JNum 42]])].

Definition no_float_of_str (s : String.string) : option R := None.

(** An order book whose levels hold objects with a price and a size. *)
Definition object_book : json :=
  JObj [("levels",
         JArr [JArr [JObj [("px", JStr "41.0"); ("sz", JStr "10")]];
               JArr [JObj [("px", JStr "42.0"); ("sz", JStr "12")]]])].

(** Answers that are the same at every round. *)
Definition steady_answers (i : nat) : option json * option json :=
  (Some sample_meta, Some sample_book).


(** ** The statistics and the trend in binary64 *)

(** numpy's reductions on arrays of binary64 numbers. *)
Module np64.
Import PrimFloat.
Local Open Scope float_scope.

(** The number of items as a float, exact on every length a history can
    have. *)
Fixpoint of_nat (n : nat) : float :=
  match n with
  | O => 0
  | S n => of_nat n + 1
  end.

(** The eight partial sums of numpy's unrolled loop: while eight items
    or more are left, item [i] of the block is added to partial sum
    [i]; what is left over is returned with the sums. *)
Fixpoint add_blocks (fuel : nat) (r l : list float)
  : list float * list float :=
  match fuel with
  | O => (r, l)
  | S fuel =>
      if (8 <=? length l)%nat
      then add_blocks fuel
                      (map (fun ab => fst ab + snd ab)
                           (combine r (firstn 8 l)))
                      (skipn 8 l)
      else (r, l)
  end.

(** The pairwise sum behind [np.sum] and [np.mean], for up to 128 items
    (a history holds 100 at most): fewer than 8 items are added from left
    to right; otherwise eight partial sums run over the blocks of eight,
    are added two by two, and the items left over are added one by
    one. *)
Definition pairwise_sum (l : list float) : float :=
  if (length l <? 8)%nat then fold_left add l 0
  else
    let '(r, rest) := add_blocks (length l) (firstn 8 l) (skipn 8 l) in
    match r with
    | [r0; r1; r2; r3; r4; r5; r6; r7] =>
        fold_left add rest
                  (((r0 + r1) + (r2 + r3)) + ((r4 + r5) + (r6 + r7)))
    | _ => 0
    end.

(** [np.add.reduce]: the sum is added to the identity of the addition. *)
Definition sum (l : list float) : float := 0 + pairwise_sum l.

Definition mean (l : list float) : float := sum l / of_nat (length l).

(** [np.std]: the mean is taken off, the differences are squared, and
    the root is taken of their sum over the number of items. *)
Definition std (l : list float) : float :=
  let arrmean := mean l in
  let x := map (fun a => a - arrmean) l in
  sqrt (sum (map (fun d => d * d) x) / of_nat (length l)).

(** [np.minimum] and [np.maximum] keep a NaN they meet. *)
Definition minimum (a b : float) : float :=
  if (a <=? b) || is_nan a then a else b.

Definition maximum (a b : float) : float :=
  if (b <=? a) || is_nan a then a else b.

Definition min (l : list float) : float :=
  match l with
  | [] => 0
  | x :: t => fold_left minimum t x
  end.

Definition max (l : list float) : float :=
  match l with
  | [] => 0
  | x :: t => fold_left maximum t x
  end.
End np64.

(** [calculate_statistics] and [get_price_trend] on a history of binary64
    numbers. *)
Module PriceAnalyzer64.
Import PrimFloat.
Local Open Scope float_scope.

Record Stats : Type := mk_stats
  { mean : float; std : float; min : float; max : float; current : float }.

Definition calculate_statistics (price_history : list float) : Stats :=
  if (length price_history <? 5)%nat
  then mk_stats 0 0 0 0 0
  else
    let prices := price_history in
    mk_stats (np64.mean prices) (np64.std prices) (np64.min prices)
             (np64.max prices) (last prices 0).

Definition get_price_trend (price_history : list float) : Trend :=
  if (length price_history <? 10)%nat then insufficient_data
  else
    let recent_prices := slice_last 10 price_history in
    if (length recent_prices <? 2)%nat then insufficient_data
    else
      let sma_5 :=
        if (5 <=? length recent_prices)%nat
        then np64.mean (slice_last 5 recent_prices)
        else np64.mean recent_prices in
      let sma_10 := np64.mean recent_prices in
      let current_price := last recent_prices 0 in
      if (sma_5 <? current_price) && (sma_10 <? sma_5)
      then strong_uptrend
      else if sma_5 <? current_price then uptrend
      else if (current_price <? sma_5) && (sma_5 <? sma_10)
      then strong_downtrend
      else if current_price <? sma_5 then downtrend
      else sideways.

(** The price 25.61, as Python reads it: the binary64 number nearest to
    2561 / 100. *)
Definition price_25_61 : float := 2561 / 100.

(** Nine prices of 10 followed by 9, and the price 10 of a flat
    series. *)
Definition falling_tail : list float := repeat 10 9 ++ [9].

Definition price_10 : float := 10.


Definition flat_series_sideways : Prop :=
  forall (price : float) (n : nat),
    10 <= n -> get_price_trend (repeat price n) = sideways.
End PriceAnalyzer64.

(** * Properties *)

(** ** Comparisons *)

Lemma Rleb_le (x y : R) : Rleb x y = true <-> (x <= y)%R.
Proof.
  unfold Rleb. destruct (Rle_dec x y); split; intros; auto; discriminate.
Qed.

Lemma Rleb_gt (x y : R) : Rleb x y = false <-> (y < x)%R.
Proof.
  unfold Rleb. destruct (Rle_dec x y); split; intros; try discriminate; auto.
  - lra.
  - lra.
Qed.

Lemma Rltb_lt (x y : R) : Rltb x y = true <-> (x < y)%R.
Proof.
  unfold Rltb. destruct (Rlt_dec x y); split; intros; auto; discriminate.
Qed.

Lemma Rltb_ge (x y : R) : Rltb x y = false <-> (y <= x)%R.
Proof.
  unfold Rltb. destruct (Rlt_dec x y); split; intros; try discriminate; auto.
  - lra.
  - lra.
Qed.

Lemma Reqb_eq (x y : R) : Reqb x y = true <-> x = y.
Proof.
  unfold Reqb. destruct (Req_dec_T x y); split; intros; auto; discriminate.
Qed.

Lemma Reqb_neq (x y : R) : Reqb x y = false <-> x <> y.
Proof.
  unfold Reqb. destruct (Req_dec_T x y); split; intros; auto;
    try discriminate; contradiction.
Qed.

(** ** Slices *)

Section Slices.
Context {A : Type}.
Implicit Types (l m : list A) (n : nat).

Lemma slice_last_length n l :
  length (slice_last n l) = Nat.min n (length l).
Proof. unfold slice_last. rewrite length_skipn. lia. Qed.

Lemma slice_last_all n l : length l <= n -> slice_last n l = l.
Proof.
  intros H. unfold slice_last.
  replace (length l - n) with 0 by lia. reflexivity.
Qed.

Lemma slice_last_min n l :
  slice_last (Nat.min n (length l)) l = slice_last n l.
Proof. unfold slice_last. f_equal. lia. Qed.

(** Slicing, appending and slicing again is appending and slicing once. *)
Lemma slice_last_app n l m :
  slice_last n (slice_last n l ++ m) = slice_last n (l ++ m).
Proof.
  unfold slice_last.
  rewrite !length_app, length_skipn.
  set (k := length l - n).
  assert (Hpre : length (firstn k l) = k)
    by (rewrite length_firstn; unfold k; lia).
  transitivity
    (skipn (length l + length m - n) ((firstn k l ++ skipn k l) ++ m)).
  2: now rewrite firstn_skipn.
  rewrite <- app_assoc, (skipn_app _ (firstn k l)), Hpre.
  rewrite (skipn_all2 (firstn k l)) by lia.
  simpl. f_equal. unfold k. lia.
Qed.

Lemma last_app_cons l m d : m <> [] -> last (l ++ m) d = last m d.
Proof.
  intros Hm. induction l as [| x l IH]; [reflexivity |].
  simpl. rewrite IH. destruct (l ++ m) eqn:E; [| reflexivity].
  apply app_eq_nil in E. tauto.
Qed.

Lemma slice_last_last n l d :
  0 < n -> last (slice_last n l) d = last l d.
Proof.
  intros Hn. unfold slice_last.
  destruct l as [| x l']; [reflexivity |].
  set (l := x :: l'). set (k := length l - n).
  rewrite <- (firstn_skipn k l) at 2.
  rewrite last_app_cons; [reflexivity |].
  intros Hnil. apply (f_equal (@length A)) in Hnil.
  rewrite length_skipn in Hnil. unfold k, l in Hnil.
  cbn [length] in Hnil. lia.
Qed.
End Slices.

(** ** Rolling price history *)

Lemma add_price_history (self : PriceAnalyzer.t) (price : R) :
  PriceAnalyzer.price_history (PriceAnalyzer.add_price self price)
  = slice_last 100 (PriceAnalyzer.price_history self ++ [price]).
Proof.
  unfold PriceAnalyzer.add_price. simpl.
  destruct (Nat.ltb_spec 100
              (length (PriceAnalyzer.price_history self ++ [price])))
    as [H | H]; simpl.
  - reflexivity.
  - symmetry. apply slice_last_all. exact H.
Qed.

Lemma add_price_fields (self : PriceAnalyzer.t) (price : R) :
  PriceAnalyzer.target_price (PriceAnalyzer.add_price self price)
  = PriceAnalyzer.target_price self
  /\ PriceAnalyzer.std_deviations (PriceAnalyzer.add_price self price)
     = PriceAnalyzer.std_deviations self
  /\ PriceAnalyzer.alert_sent (PriceAnalyzer.add_price self price)
     = PriceAnalyzer.alert_sent self.
Proof.
  unfold PriceAnalyzer.add_price. simpl.
  destruct (100 <? _); simpl; auto.
Qed.

Lemma add_prices_history (prices : list R) (self : PriceAnalyzer.t) :
  length (PriceAnalyzer.price_history self) <= 100 ->
  PriceAnalyzer.price_history (add_prices self prices)
  = slice_last 100 (PriceAnalyzer.price_history self ++ prices).
Proof.
  revert self. induction prices as [| p prices IH]; intros self Hlen.
  - simpl. rewrite app_nil_r. symmetry. apply slice_last_all. exact Hlen.
  - change (add_prices self (p :: prices))
      with (add_prices (PriceAnalyzer.add_price self p) prices).
    rewrite IH.
    + rewrite add_price_history, slice_last_app, <- app_assoc. reflexivity.
    + rewrite add_price_history, slice_last_length. lia.
Qed.

(** C1, as the code has it: [add_price] checks nothing.  Whatever the
    price, positive or not, the call goes through and the price becomes the
    newest item of the history, which is the old history with the price
    appended, cut to its last 100 items; the other attributes are kept. *)
Theorem add_price_appends_any_price (self : PriceAnalyzer.t) (price : R) :
  PriceAnalyzer.price_history (PriceAnalyzer.add_price self price)
  = slice_last 100 (PriceAnalyzer.price_history self ++ [price])
  /\ last (PriceAnalyzer.price_history (PriceAnalyzer.add_price self price))
          0%R
     = price
  /\ PriceAnalyzer.target_price (PriceAnalyzer.add_price self price)
     = PriceAnalyzer.target_price self
  /\ PriceAnalyzer.std_deviations (PriceAnalyzer.add_price self price)
     = PriceAnalyzer.std_deviations self.
Proof.
  pose proof (add_price_fields self price) as (Ht & Hs & _).
  rewrite add_price_history.
  repeat split; auto.
  rewrite slice_last_last by lia. apply last_last.
Qed.

(** C1 fails on the code: a non-positive price, here [-1] offered to a new
    analyzer, is stored like any other, so the history does not refuse
    it. *)
Lemma add_price_stores_negative_price :
  PriceAnalyzer.price_history
    (PriceAnalyzer.add_price PriceAnalyzer.default (-1))
  = [(-1)%R]
  /\ ~ refuses_non_positive_prices.
Proof.
  split; [reflexivity |].
  intros H. specialize (H PriceAnalyzer.default (-1)%R).
  assert (Hneg : (-1 <= 0)%R) by lra.
  specialize (H Hneg). discriminate H.
Qed.

(** C2: from an empty history, after any run of [add_price] calls the
    history has at most 100 items and is made of the last
    [min 100 (number of calls)] prices given, in the order they came: what
    was evicted is the oldest part of the run. *)
Theorem history_is_last_100_inserts
  (target_price std_deviations : R) (prices : list R) :
  let self :=
    add_prices (PriceAnalyzer.init target_price std_deviations) prices in
  length (PriceAnalyzer.price_history self) <= 100
  /\ PriceAnalyzer.price_history self
     = slice_last (Nat.min 100 (length prices)) prices
  /\ length (PriceAnalyzer.price_history self)
     = Nat.min 100 (length prices)
  /\ exists evicted, prices = evicted ++ PriceAnalyzer.price_history self.
Proof.
  intros self. unfold self.
  rewrite add_prices_history by (simpl; lia).
  cbn [PriceAnalyzer.init PriceAnalyzer.price_history app].
  rewrite slice_last_min, slice_last_length.
  split; [lia |]. split; [reflexivity |]. split; [reflexivity |].
  exists (firstn (length prices - 100) prices).
  unfold slice_last. symmetry. apply firstn_skipn.
Qed.

(** ** numpy's reductions *)

Section Reductions.
Local Open Scope R_scope.
Implicit Types (l : list R) (x y : R).









Lemma np_mean_times_length l :
  l <> [] -> np.mean l * INR (length l) = np.sum l.
Proof.
  intros Hne. unfold np.mean.
  assert (Hn : 0 < INR (length l)).
  { apply lt_0_INR. destruct l; [congruence | simpl; lia]. }
  field. lra.
Qed.

Lemma np_sum_squares_nonneg l m :
  0 <= np.sum (map (fun x => Rsqr (x - m)) l).
Proof.
  induction l as [| a l IH]; simpl; [lra |].
  pose proof (Rle_0_sqr (a - m)). lra.
Qed.

(** [np.std] is the non-negative root of the squared deviations summed
    and divided by the number of items. *)
Lemma np_std_spec l :
  l <> [] ->
  0 <= np.std l
  /\ Rsqr (np.std l) * INR (length l)
     = np.sum (map (fun x => Rsqr (x - np.mean l)) l).
Proof.
  intros Hne. unfold np.std.
  assert (Hn : 0 < INR (length l)).
  { apply lt_0_INR. destruct l; [congruence | simpl; lia]. }
  split; [apply sqrt_pos |].
  rewrite Rsqr_sqrt.
  - rewrite <- (length_map (fun x => Rsqr (x - np.mean l)) l) at 1.
    apply np_mean_times_length.
    destruct l; [congruence | discriminate].
  - unfold np.mean at 1. rewrite length_map.
    apply Rmult_le_pos; [apply np_sum_squares_nonneg |].
    left. apply Rinv_0_lt_compat. exact Hn.
Qed.

End Reductions.

(** ** Statistics *)


Lemma calculate_statistics_short (self : PriceAnalyzer.t) :
  length (PriceAnalyzer.price_history self) < 5 ->
  PriceAnalyzer.calculate_statistics self = Stats.mk 0 0 0 0 0.
Proof.
  intros H. unfold PriceAnalyzer.calculate_statistics.
  destruct (Nat.ltb_spec (length (PriceAnalyzer.price_history self)) 5);
    [reflexivity | lia].
Qed.

Lemma calculate_statistics_long (self : PriceAnalyzer.t) :
  5 <= length (PriceAnalyzer.price_history self) ->
  PriceAnalyzer.calculate_statistics self
  = let prices := PriceAnalyzer.price_history self in
    Stats.mk (np.mean prices) (np.std prices) (np.min prices)
             (np.max prices) (last prices 0%R).
Proof.
  intros H. unfold PriceAnalyzer.calculate_statistics.
  destruct (Nat.ltb_spec (length (PriceAnalyzer.price_history self)) 5);
    [lia | reflexivity].
Qed.



(** ** Alert decision *)

Section Decision.
Variable lib : MathLib.
Variable self : PriceAnalyzer.t.
Local Open Scope R_scope.

Let prices := PriceAnalyzer.price_history self.
Let stats := PriceAnalyzer.calculate_statistics self.
Let current := Stats.current stats.
Let target := PriceAnalyzer.target_price self.
Let k := PriceAnalyzer.std_deviations self.
Let lower_bound := Stats.mean stats - k * Stats.std stats.
Let probability := PriceAnalyzer.predict_price_drop_probability lib self.

Lemma should_alert_short :
  (length prices < 5)%nat ->
  PriceAnalyzer.should_alert lib self = (false, no_info).
Proof.
  intros H. unfold PriceAnalyzer.should_alert. fold prices.
  destruct (Nat.ltb_spec (length prices) 5); [reflexivity | lia].
Qed.

Lemma should_alert_below_target :
  (5 <= length prices)%nat ->
  current <= target ->
  PriceAnalyzer.should_alert lib self
  = (true, below_target_info current target).
Proof.
  intros H Hc. unfold PriceAnalyzer.should_alert. fold prices.
  destruct (Nat.ltb_spec (length prices) 5); [lia |].
  fold stats. fold current. fold target.
  apply Rleb_le in Hc. rewrite Hc. reflexivity.
Qed.

Lemma should_alert_std_deviations :
  (5 <= length prices)%nat ->
  target < current ->
  current <= lower_bound ->
  PriceAnalyzer.should_alert lib self
  = (true, std_deviations_info current lower_bound k).
Proof.
  intros H Hc Hb. unfold PriceAnalyzer.should_alert. fold prices.
  destruct (Nat.ltb_spec (length prices) 5); [lia |].
  fold stats. fold current. fold target. fold k. fold lower_bound.
  apply Rleb_gt in Hc. apply Rleb_le in Hb. rewrite Hc, Hb. reflexivity.
Qed.

Lemma should_alert_drop_probability :
  (5 <= length prices)%nat ->
  target < current ->
  lower_bound < current ->
  config.ALERT_THRESHOLD <= probability ->
  PriceAnalyzer.should_alert lib self
  = (true, drop_probability_info current probability
                                 config.ALERT_THRESHOLD).
Proof.
  intros H Hc Hb Hp. unfold PriceAnalyzer.should_alert. fold prices.
  destruct (Nat.ltb_spec (length prices) 5); [lia |].
  fold stats. fold current. fold target. fold k. fold lower_bound.
  fold probability.
  apply Rleb_gt in Hc. apply Rleb_gt in Hb. apply Rleb_le in Hp.
  rewrite Hc, Hb, Hp. reflexivity.
Qed.

Lemma should_alert_none :
  (5 <= length prices)%nat ->
  target < current ->
  lower_bound < current ->
  probability < config.ALERT_THRESHOLD ->
  PriceAnalyzer.should_alert lib self = (false, no_info).
Proof.
  intros H Hc Hb Hp. unfold PriceAnalyzer.should_alert. fold prices.
  destruct (Nat.ltb_spec (length prices) 5); [lia |].
  fold stats. fold current. fold target. fold k. fold lower_bound.
  fold probability.
  apply Rleb_gt in Hc. apply Rleb_gt in Hb. apply Rleb_gt in Hp.
  rewrite Hc, Hb, Hp. reflexivity.
Qed.

(** C3: below 5 prices there is no alert; from 5 prices on the three
    conditions are tried in the order target, deviation band, probability,
    and the first that holds gives the reason; a current price equal to
    the target gives [current_price_below_target] whatever the deviation
    band and the probability are. *)
Theorem should_alert_order :
  ((length prices < 5)%nat ->
   PriceAnalyzer.should_alert lib self = (false, no_info))
  /\ ((5 <= length prices)%nat ->
      (current <= target ->
       PriceAnalyzer.should_alert lib self
       = (true, below_target_info current target))
      /\ (target < current -> current <= lower_bound ->
          PriceAnalyzer.should_alert lib self
          = (true, std_deviations_info current lower_bound k))
      /\ (target < current -> lower_bound < current ->
          config.ALERT_THRESHOLD <= probability ->
          PriceAnalyzer.should_alert lib self
          = (true, drop_probability_info current probability
                                         config.ALERT_THRESHOLD))
      /\ (target < current -> lower_bound < current ->
          probability < config.ALERT_THRESHOLD ->
          PriceAnalyzer.should_alert lib self = (false, no_info))
      /\ (current = target ->
          fst (PriceAnalyzer.should_alert lib self) = true
          /\ reason (snd (PriceAnalyzer.should_alert lib self))
             = Some current_price_below_target)).
Proof.
  split; [apply should_alert_short |]. intros H.
  repeat split.
  - now apply should_alert_below_target.
  - now apply should_alert_std_deviations.
  - now apply should_alert_drop_probability.
  - now apply should_alert_none.
  - rewrite should_alert_below_target; [reflexivity | exact H | lra].
  - rewrite should_alert_below_target; [reflexivity | exact H | lra].
Qed.
End Decision.

(** ** Urgency *)

Lemma Trend_eqb_eq (a b : Trend) :
  PriceAnalyzer.Trend_eqb a b = true <-> a = b.
Proof. destruct a, b; simpl; split; intros H; congruence. Qed.

Lemma drop_below_target_history :
  PriceAnalyzer.price_history drop_below_target
  = [42; 42; 42; 42; 42; 40]%R.
Proof. reflexivity. Qed.

Lemma drop_below_target_target :
  PriceAnalyzer.target_price drop_below_target = 41%R.
Proof. reflexivity. Qed.

Lemma drop_below_target_current :
  Stats.current (PriceAnalyzer.calculate_statistics drop_below_target)
  = 40%R.
Proof. reflexivity. Qed.

Section Urgency.
Variable lib : MathLib.
Variable self : PriceAnalyzer.t.
Local Open Scope R_scope.

Let prices := PriceAnalyzer.price_history self.
Let current :=
  Stats.current (PriceAnalyzer.calculate_statistics self).
Let probability := PriceAnalyzer.predict_price_drop_probability lib self.
Let trend := PriceAnalyzer.get_price_trend self.

Lemma is_urgent_alert_short :
  (length prices < 5)%nat -> PriceAnalyzer.is_urgent_alert lib self = false.
Proof.
  intros H. unfold PriceAnalyzer.is_urgent_alert. fold prices.
  destruct (Nat.ltb_spec (length prices) 5); [reflexivity | lia].
Qed.

Lemma is_urgent_alert_long :
  (5 <= length prices)%nat ->
  PriceAnalyzer.is_urgent_alert lib self = true
  <-> current <= config.CRITICAL_PRICE_THRESHOLD
      \/ (trend = strong_downtrend
          /\ config.STRONG_DOWNTREND_THRESHOLD <= probability)
      \/ current <= config.TARGET_PRICE + 5 / 10.
Proof.
  intros H. unfold PriceAnalyzer.is_urgent_alert. fold prices.
  destruct (Nat.ltb_spec (length prices) 5); [lia |].
  fold current. fold probability. fold trend.
  rewrite !orb_true_iff, andb_true_iff, !Rleb_le, Trend_eqb_eq.
  tauto.
Qed.
End Urgency.

(** C4: below 5 prices nothing is urgent; from 5 prices on the alert is
    urgent exactly when the current price is at or below the critical
    threshold, or the trend is a strong downtrend with a probability at or
    above the strong-downtrend threshold, or the current price is at or
    below the configured target plus 0.5, and the alert reason plays no
    part in it.  With five prices of 42 followed by 40 there is an alert
    with reason [current_price_below_target], and it is urgent. *)
Theorem is_urgent_alert_spec (lib : MathLib) (self : PriceAnalyzer.t) :
  let prices := PriceAnalyzer.price_history self in
  let current := Stats.current (PriceAnalyzer.calculate_statistics self) in
  let probability := PriceAnalyzer.predict_price_drop_probability lib self in
  let trend := PriceAnalyzer.get_price_trend self in
  (length prices < 5 -> PriceAnalyzer.is_urgent_alert lib self = false)
  /\ (5 <= length prices ->
      PriceAnalyzer.is_urgent_alert lib self = true
      <-> (current <= config.CRITICAL_PRICE_THRESHOLD
           \/ (trend = strong_downtrend
               /\ config.STRONG_DOWNTREND_THRESHOLD <= probability)
           \/ current <= config.TARGET_PRICE + 5 / 10)%R)
  /\ PriceAnalyzer.should_alert lib drop_below_target
     = (true, below_target_info 40 41)
  /\ reason (snd (PriceAnalyzer.should_alert lib drop_below_target))
     = Some current_price_below_target
  /\ PriceAnalyzer.is_urgent_alert lib drop_below_target = true.
Proof.
  intros prices current probability trend.
  assert (Halert : PriceAnalyzer.should_alert lib drop_below_target
                   = (true, below_target_info 40 41)).
  { rewrite should_alert_below_target.
    - rewrite drop_below_target_current, drop_below_target_target.
      reflexivity.
    - rewrite drop_below_target_history. simpl. lia.
    - rewrite drop_below_target_current, drop_below_target_target. lra. }
  split; [apply is_urgent_alert_short |].
  split; [apply is_urgent_alert_long |].
  split; [exact Halert |].
  split; [rewrite Halert; reflexivity |].
  apply is_urgent_alert_long.
  - rewrite drop_below_target_history. simpl. lia.
  - right. right. rewrite drop_below_target_current.
    unfold config.TARGET_PRICE. lra.
Qed.

(** ** Trend *)

Lemma slice_last_slice_last (A : Type) (n m : nat) (l : list A) :
  n <= m -> slice_last n (slice_last m l) = slice_last n l.
Proof.
  intros H. unfold slice_last.
  rewrite length_skipn, skipn_skipn. f_equal. lia.
Qed.

Lemma skipn_repeat (A : Type) (x : A) (k n : nat) :
  skipn k (repeat x n) = repeat x (n - k).
Proof.
  revert k. induction n as [| n IH]; intros k.
  - simpl. apply skipn_nil.
  - destruct k as [| k]; [reflexivity |]. simpl. apply IH.
Qed.

Lemma slice_last_repeat (A : Type) (x : A) (k n : nat) :
  slice_last k (repeat x n) = repeat x (Nat.min k n).
Proof.
  unfold slice_last. rewrite skipn_repeat, repeat_length. f_equal. lia.
Qed.

Section TrendRules.
Variable self : PriceAnalyzer.t.
Local Open Scope R_scope.

Let prices := PriceAnalyzer.price_history self.
Let sma_5 := np.mean (slice_last 5 prices).
Let sma_10 := np.mean (slice_last 10 prices).
Let current := last prices 0.

Lemma get_price_trend_short :
  (length prices < 10)%nat ->
  PriceAnalyzer.get_price_trend self = insufficient_data.
Proof.
  intros H. unfold PriceAnalyzer.get_price_trend. fold prices.
  destruct (Nat.ltb_spec (length prices) 10); [reflexivity | lia].
Qed.

(** From 10 prices on, the trend is decided by these three comparisons. *)
Lemma get_price_trend_long :
  (10 <= length prices)%nat ->
  PriceAnalyzer.get_price_trend self
  = if Rltb sma_5 current && Rltb sma_10 sma_5 then strong_uptrend
    else if Rltb sma_5 current then uptrend
    else if Rltb current sma_5 && Rltb sma_5 sma_10 then strong_downtrend
    else if Rltb current sma_5 then downtrend
    else sideways.
Proof.
  intros H. unfold PriceAnalyzer.get_price_trend. fold prices.
  destruct (Nat.ltb_spec (length prices) 10); [lia |].
  rewrite slice_last_length.
  replace (Nat.min 10 (length prices)) with 10%nat by lia.
  cbn [Nat.ltb Nat.leb].
  rewrite slice_last_slice_last by lia.
  rewrite slice_last_last by lia.
  reflexivity.
Qed.

Lemma get_price_trend_strong_uptrend :
  (10 <= length prices)%nat -> sma_5 < current -> sma_10 < sma_5 ->
  PriceAnalyzer.get_price_trend self = strong_uptrend.
Proof.
  intros H H1 H2. rewrite get_price_trend_long by exact H.
  apply Rltb_lt in H1. apply Rltb_lt in H2. rewrite H1, H2. reflexivity.
Qed.

Lemma get_price_trend_uptrend :
  (10 <= length prices)%nat -> sma_5 < current -> sma_5 <= sma_10 ->
  PriceAnalyzer.get_price_trend self = uptrend.
Proof.
  intros H H1 H2. rewrite get_price_trend_long by exact H.
  apply Rltb_lt in H1. apply Rltb_ge in H2. rewrite H1, H2. reflexivity.
Qed.

Lemma get_price_trend_strong_downtrend :
  (10 <= length prices)%nat -> current < sma_5 -> sma_5 < sma_10 ->
  PriceAnalyzer.get_price_trend self = strong_downtrend.
Proof.
  intros H H1 H2. rewrite get_price_trend_long by exact H.
  assert (H3 : Rltb sma_5 current = false) by (apply Rltb_ge; lra).
  apply Rltb_lt in H1. apply Rltb_lt in H2. rewrite H1, H2, H3. reflexivity.
Qed.

Lemma get_price_trend_downtrend :
  (10 <= length prices)%nat -> current < sma_5 -> sma_10 <= sma_5 ->
  PriceAnalyzer.get_price_trend self = downtrend.
Proof.
  intros H H1 H2. rewrite get_price_trend_long by exact H.
  assert (H3 : Rltb sma_5 current = false) by (apply Rltb_ge; lra).
  apply Rltb_lt in H1. apply Rltb_ge in H2. rewrite H1, H2, H3. reflexivity.
Qed.

Lemma get_price_trend_sideways :
  (10 <= length prices)%nat -> current = sma_5 ->
  PriceAnalyzer.get_price_trend self = sideways.
Proof.
  intros H H1. rewrite get_price_trend_long by exact H.
  assert (H2 : Rltb sma_5 current = false) by (apply Rltb_ge; lra).
  assert (H3 : Rltb current sma_5 = false) by (apply Rltb_ge; lra).
  rewrite H2, H3. reflexivity.
Qed.
End TrendRules.

Lemma falling_tail_history :
  PriceAnalyzer.price_history falling_tail
  = [10; 10; 10; 10; 10; 10; 10; 10; 10; 9]%R.
Proof. reflexivity. Qed.

Lemma falling_tail_averages :
  (np.mean (slice_last 5 (PriceAnalyzer.price_history falling_tail))
   = 49 / 5
   /\ np.mean (slice_last 10 (PriceAnalyzer.price_history falling_tail))
      = 99 / 10)%R.
Proof.
  rewrite falling_tail_history. unfold np.mean. simpl. split; field.
Qed.

Lemma flat_series_history (price : R) (n : nat) :
  PriceAnalyzer.price_history (flat_series price n)
  = repeat price (Nat.min 100 n).
Proof.
  unfold flat_series. rewrite add_prices_history by (simpl; lia).
  cbn [PriceAnalyzer.default PriceAnalyzer.init PriceAnalyzer.price_history
       app].
  apply slice_last_repeat.
Qed.

(** On binary64 numbers, a flat series of 10 prices or more is classified
    by the last 10 of them. *)
Lemma get_price_trend_flat_last_10 (price : PrimFloat.float) (n : nat) :
  10 <= n ->
  PriceAnalyzer64.get_price_trend (repeat price n)
  = PriceAnalyzer64.get_price_trend (repeat price 10).
Proof.
  intros Hn. unfold PriceAnalyzer64.get_price_trend.
  rewrite !slice_last_repeat, !repeat_length.
  replace (Nat.min 10 n) with 10 by lia.
  replace (n <? 10) with false by (symmetry; apply Nat.ltb_ge; exact Hn).
  reflexivity.
Qed.

(** The if-chain of [get_price_trend] on ten equal binary64 prices: the
    current price is the price, and the two averages are those of five
    and of ten copies of it. *)
Lemma get_price_trend_flat_10 (price : PrimFloat.float) :
  PriceAnalyzer64.get_price_trend (repeat price 10)
  = let sma_5 := np64.mean (repeat price 5) in
    let sma_10 := np64.mean (repeat price 10) in
    if PrimFloat.ltb sma_5 price && PrimFloat.ltb sma_10 sma_5
    then strong_uptrend
    else if PrimFloat.ltb sma_5 price then uptrend
    else if PrimFloat.ltb price sma_5 && PrimFloat.ltb sma_5 sma_10
    then strong_downtrend
    else if PrimFloat.ltb price sma_5 then downtrend
    else sideways.
Proof. reflexivity. Qed.

(** C8, as the code has it: below 10 prices the trend is
    [insufficient_data]; from 10 prices on, with [sma_5] the mean of the
    last 5 prices, [sma_10] the mean of the last 10 and [current] the last
    price, the label is the first that applies of: strong uptrend
    ([current > sma_5 > sma_10]), uptrend ([current > sma_5]), strong
    downtrend ([current < sma_5 < sma_10]), downtrend ([current < sma_5]),
    sideways.  Nine prices of 10 followed by 9 give a strong downtrend, as
    [current < sma_5 < sma_10] there, on real and on binary64 numbers
    alike.  On binary64 numbers a flat series of 10 prices or more is
    sideways exactly when the mean computed from five of its prices is
    neither above nor below the price, as it is for a price of 10. *)
Theorem get_price_trend_rules (self : PriceAnalyzer.t) :
  let prices := PriceAnalyzer.price_history self in
  let sma_5 := np.mean (slice_last 5 prices) in
  let sma_10 := np.mean (slice_last 10 prices) in
  let current := last prices 0%R in
  (length prices < 10 ->
   PriceAnalyzer.get_price_trend self = insufficient_data)
  /\ (10 <= length prices ->
      ((sma_5 < current)%R -> (sma_10 < sma_5)%R ->
       PriceAnalyzer.get_price_trend self = strong_uptrend)
      /\ ((sma_5 < current)%R -> (sma_5 <= sma_10)%R ->
          PriceAnalyzer.get_price_trend self = uptrend)
      /\ ((current < sma_5)%R -> (sma_5 < sma_10)%R ->
          PriceAnalyzer.get_price_trend self = strong_downtrend)
      /\ ((current < sma_5)%R -> (sma_10 <= sma_5)%R ->
          PriceAnalyzer.get_price_trend self = downtrend)
      /\ (current = sma_5 ->
          PriceAnalyzer.get_price_trend self = sideways))
  /\ (PriceAnalyzer.get_price_trend falling_tail = strong_downtrend
      /\ (last (PriceAnalyzer.price_history falling_tail) 0
          < np.mean (slice_last 5 (PriceAnalyzer.price_history falling_tail))
          < np.mean (slice_last 10
                       (PriceAnalyzer.price_history falling_tail)))%R
      /\ PriceAnalyzer64.get_price_trend PriceAnalyzer64.falling_tail
         = strong_downtrend)
  /\ (forall (price : PrimFloat.float) (n : nat),
         10 <= n ->
         PriceAnalyzer64.get_price_trend (repeat price n) = sideways
         <-> PrimFloat.ltb (np64.mean (repeat price 5)) price = false
             /\ PrimFloat.ltb price (np64.mean (repeat price 5)) = false)
  /\ (forall n,
         10 <= n ->
         PriceAnalyzer64.get_price_trend
           (repeat PriceAnalyzer64.price_10 n) = sideways).
Proof.
  intros prices sma_5 sma_10 current.
  split; [apply get_price_trend_short |].
  split.
  { intros H. repeat split.
    - now apply get_price_trend_strong_uptrend.
    - now apply get_price_trend_uptrend.
    - now apply get_price_trend_strong_downtrend.
    - now apply get_price_trend_downtrend.
    - now apply get_price_trend_sideways. }
  split; [| split].
  - destruct falling_tail_averages as [H5 H10].
    assert (Hlast : last (PriceAnalyzer.price_history falling_tail) 0%R
                    = 9%R) by reflexivity.
    split; [| split].
    + apply get_price_trend_strong_downtrend.
      * rewrite falling_tail_history. simpl. lia.
      * rewrite H5, Hlast. lra.
      * rewrite H5, H10. lra.
    + rewrite H5, H10, Hlast. lra.
    + vm_compute. reflexivity.
  - intros price n Hn.
    rewrite (get_price_trend_flat_last_10 price Hn), get_price_trend_flat_10.
    cbv zeta.
    destruct (PrimFloat.ltb (np64.mean (repeat price 5)) price);
      destruct (PrimFloat.ltb price (np64.mean (repeat price 5)));
      destruct (PrimFloat.ltb (np64.mean (repeat price 10))
                              (np64.mean (repeat price 5)));
      destruct (PrimFloat.ltb (np64.mean (repeat price 5))
                              (np64.mean (repeat price 10)));
      cbn [andb]; split;
      solve [ discriminate | intros [? ?]; discriminate
            | intros _; split; reflexivity | intros _; reflexivity ].
  - intros n Hn.
    rewrite (get_price_trend_flat_last_10 PriceAnalyzer64.price_10 Hn).
    vm_compute. reflexivity.
Qed.

(** C8 does not hold of flat series: ten prices of 25.61 have a mean of
    the last five of 25.610000000000003, above the current price, and a
    mean of the last ten that is the same, so that the trend is
    [downtrend]. *)
Lemma flat_series_downtrend :
  np64.mean (slice_last 5 (repeat PriceAnalyzer64.price_25_61 10))
  = PrimFloat.next_up PriceAnalyzer64.price_25_61
  /\ np64.mean (slice_last 10 (repeat PriceAnalyzer64.price_25_61 10))
     = PrimFloat.next_up PriceAnalyzer64.price_25_61
  /\ PriceAnalyzer64.get_price_trend (repeat PriceAnalyzer64.price_25_61 10)
     = downtrend
  /\ ~ PriceAnalyzer64.flat_series_sideways.
Proof.
  split; [vm_compute; reflexivity |].
  split; [vm_compute; reflexivity |].
  split; [vm_compute; reflexivity |].
  intros H.
  specialize (H PriceAnalyzer64.price_25_61 10 (le_n 10)).
  vm_compute in H. discriminate H.
Qed.

(** ** Breach probability *)

Lemma sigmoid_range (x : R) : (-1 <= sigmoid x <= 1)%R.
Proof.
  unfold sigmoid.
  pose proof (Rabs_pos x) as H0.
  pose proof (Rle_abs x) as H1.
  pose proof (Rle_abs (- x)) as H2. rewrite Rabs_Ropp in H2.
  assert (Hd : (0 < 1 + Rabs x)%R) by lra.
  split; apply Rmult_le_reg_r with (1 + Rabs x)%R; try exact Hd;
    unfold Rdiv; rewrite Rmult_assoc, Rinv_l by lra; lra.
Qed.

Section Probability.
Variable lib : MathLib.
Variable self : PriceAnalyzer.t.
Local Open Scope R_scope.

Let prices := PriceAnalyzer.price_history self.
Let stats := PriceAnalyzer.calculate_statistics self.
Let target := PriceAnalyzer.target_price self.
Let probability := PriceAnalyzer.predict_price_drop_probability lib self.

Lemma predict_short : (length prices < 10)%nat -> probability = 0.
Proof.
  intros H. unfold probability, PriceAnalyzer.predict_price_drop_probability.
  fold prices.
  destruct (Nat.ltb_spec (length prices) 10); [reflexivity | lia].
Qed.

Lemma predict_no_deviation : Stats.std stats = 0 -> probability = 0.
Proof.
  intros H. unfold probability, PriceAnalyzer.predict_price_drop_probability.
  fold prices. destruct (length prices <? 10)%nat; [reflexivity |].
  fold stats. apply Reqb_eq in H. rewrite H. reflexivity.
Qed.

(** With 10 prices and a deviation, the result is what the library in use
    gives at the z-score of the target. *)
Lemma predict_long :
  (10 <= length prices)%nat ->
  Stats.std stats <> 0 ->
  probability
  = let z_score := (target - Stats.mean stats) / Stats.std stats in
    if scipy_importable lib then norm_cdf lib z_score
    else Phi (math_erf lib) z_score.
Proof.
  intros H Hs.
  unfold probability, PriceAnalyzer.predict_price_drop_probability.
  fold prices. destruct (Nat.ltb_spec (length prices) 10); [lia |].
  fold stats. apply Reqb_neq in Hs. rewrite Hs. reflexivity.
Qed.

(** What is taken from the libraries: [math.erf] has its values between
    -1 and 1, and [norm.cdf] is the function the error function identity
    gives. *)
Hypothesis erf_range : forall x, -1 <= math_erf lib x <= 1.
Hypothesis norm_cdf_erf : forall z, norm_cdf lib z = Phi (math_erf lib) z.

Lemma Phi_range (z : R) : 0 <= Phi (math_erf lib) z <= 1.
Proof. unfold Phi. pose proof (erf_range (z / sqrt 2)). lra. Qed.

(** C6: the probability is 0 below 10 prices and whenever the deviation
    is 0; otherwise it is the standard normal distribution function, in
    its error-function form, at [(target - mean) / std]; and it always
    lies between 0 and 1. *)
Theorem predict_price_drop_probability_spec :
  ((length prices < 10)%nat -> probability = 0)
  /\ (Stats.std stats = 0 -> probability = 0)
  /\ ((10 <= length prices)%nat -> Stats.std stats <> 0 ->
      probability
      = Phi (math_erf lib) ((target - Stats.mean stats) / Stats.std stats))
  /\ 0 <= probability <= 1.
Proof.
  split; [exact predict_short |].
  split; [exact predict_no_deviation |].
  assert (Hlong : (10 <= length prices)%nat -> Stats.std stats <> 0 ->
                  probability
                  = Phi (math_erf lib)
                        ((target - Stats.mean stats) / Stats.std stats)).
  { intros H Hs. rewrite (predict_long H Hs). cbv zeta.
    destruct (scipy_importable lib); [apply norm_cdf_erf | reflexivity]. }
  split; [exact Hlong |].
  destruct (Nat.lt_ge_cases (length prices) 10) as [H | H].
  - rewrite (predict_short H). lra.
  - destruct (Req_dec_T (Stats.std stats) 0) as [Hs | Hs].
    + rewrite (predict_no_deviation Hs). lra.
    + rewrite (Hlong H Hs). apply Phi_range.
Qed.
End Probability.

(** ** Cooldown gate *)

Section Gate.
Local Open Scope Z_scope.
Implicit Types (self : TelegramAlerter.t) (w : Attempt) (t now : datetime).


Lemma can_send_alert_after self (is_urgent : bool) t now :
  TelegramAlerter.last_alert_time self = Some t ->
  TelegramAlerter.can_send_alert self is_urgent now = true
  <-> t + cooldown is_urgent <= now.
Proof.
  intros H. unfold TelegramAlerter.can_send_alert. rewrite H.
  cbn [config.ENABLE_VOICE_MESSAGES config.ENABLE_TEXT_ALERTS negb andb].
  fold (cooldown is_urgent). rewrite Z.leb_le. lia.
Qed.

Lemma can_send_alert_cooling self (is_urgent : bool) t now :
  TelegramAlerter.last_alert_time self = Some t ->
  now < t + cooldown is_urgent ->
  TelegramAlerter.can_send_alert self is_urgent now = false.
Proof.
  intros H Hnow.
  destruct (TelegramAlerter.can_send_alert self is_urgent now) eqn:E;
    [| reflexivity].
  apply (@can_send_alert_after self is_urgent t now H) in E. lia.
Qed.




End Gate.

(** ** Monitoring cycle *)

Section Cycle.
Variable TELEGRAM_CHAT_ID : option String.string.
Variable lib : MathLib.
Implicit Types (self : HypeBot.t) (io : CycleIO).
Local Open Scope string_scope.

Lemma send_regular_update_failed_fetch self io :
  fetched io = None ->
  HypeBot.send_regular_update TELEGRAM_CHAT_ID lib self io
  = (self,
     if truthy TELEGRAM_CHAT_ID
     then [log_warning "Unable to fetch price for regular update"]
     else []).
Proof.
  intros H. unfold HypeBot.send_regular_update. rewrite H.
  destruct (truthy TELEGRAM_CHAT_ID); reflexivity.
Qed.

(** C9: a cycle whose fetch fails gives back the bot as it was, so the
    price history, its length and the cooldown stamp are what they were;
    nothing is sent, neither alert nor status, and at most a warning is
    logged; and the monitoring loop sleeps its interval and goes on with
    the following cycles from that same state. *)
Theorem failed_fetch_leaves_state self io (later : list CycleIO) :
  fetched io = None ->
  let '(after, events) :=
    HypeBot.send_regular_update TELEGRAM_CHAT_ID lib self io in
  after = self
  /\ PriceAnalyzer.price_history (HypeBot.price_analyzer after)
     = PriceAnalyzer.price_history (HypeBot.price_analyzer self)
  /\ TelegramAlerter.last_alert_time (HypeBot.telegram_alerter after)
     = TelegramAlerter.last_alert_time (HypeBot.telegram_alerter self)
  /\ (forall e, In e events ->
                e = log_warning "Unable to fetch price for regular update")
  /\ alerts_delivered events = 0
  /\ (HypeBot.is_running self = true ->
      HypeBot.monitoring_loop TELEGRAM_CHAT_ID lib self (io :: later)
      = let '(final, later_events) :=
          HypeBot.monitoring_loop TELEGRAM_CHAT_ID lib self later in
        (final,
         events
           ++ asyncio_sleep (config.UPDATE_INTERVAL_MINUTES * 60)
           :: later_events)).
Proof.
  intros H.
  pose proof (send_regular_update_failed_fetch self io H) as E.
  cbn [HypeBot.monitoring_loop].
  destruct (HypeBot.send_regular_update TELEGRAM_CHAT_ID lib self io)
    as [after events].
  injection E as -> ->.
  repeat split.
  - intros e He. destruct (truthy TELEGRAM_CHAT_ID); simpl in He;
      [destruct He as [<- | []]; reflexivity | contradiction].
  - destruct (truthy TELEGRAM_CHAT_ID); reflexivity.
  - intros Hrun. rewrite Hrun.
    destruct (HypeBot.monitoring_loop TELEGRAM_CHAT_ID lib self later).
    reflexivity.
Qed.
End Cycle.

(** ** One alert, two channels *)

Section Channels.
Variable TELEGRAM_CHAT_ID : option String.string.
Hypothesis chat_id_configured : truthy TELEGRAM_CHAT_ID = true.
Variable self : HypeBot.t.
Variable analysis : Analysis.t.
Variable io : AlertIO.
Local Open Scope string_scope.
Local Open Scope Z_scope.

Let is_urgent := Analysis.is_urgent analysis.

Lemma send_text_alert_suppressed
      (alerter : TelegramAlerter.t) (t : datetime) :
  TelegramAlerter.last_alert_time alerter = Some t ->
  now_at_check (text io) < t + cooldown is_urgent ->
  TelegramAlerter.send_text_alert alerter is_urgent (text io)
  = (false, alerter, []).
Proof.
  intros Ht Hnow. unfold TelegramAlerter.send_text_alert.
  rewrite (@can_send_alert_cooling alerter is_urgent t _ Ht Hnow).
  reflexivity.
Qed.

Lemma send_alert_voice_first (stamp : datetime) :
  TelegramAlerter.can_send_alert
    (HypeBot.telegram_alerter self) is_urgent (now_at_check (voice io))
  = true ->
  delivery (voice io) = Some stamp ->
  now_at_check (text io) < stamp + cooldown is_urgent ->
  HypeBot.send_alert TELEGRAM_CHAT_ID self analysis io
  = (HypeBot.set_telegram_alerter
       self {| TelegramAlerter.last_alert_time := Some stamp |},
     [send_voice is_urgent;
      log_info "Voice alert sent successfully";
      log_info (if is_urgent
                then "CRITICAL voice alert sent successfully"
                else "Regular voice alert sent successfully");
      log_info "Text alert skipped (cooldown or disabled)"]).
Proof.
  intros Hgate Hvoice Htext.
  unfold HypeBot.send_alert. rewrite chat_id_configured.
  cbn [negb]. fold is_urgent.
  unfold TelegramAlerter.send_voice_alert. rewrite Hgate, Hvoice.
  cbn [config.ENABLE_VOICE_MESSAGES negb orb].
  cbn [HypeBot.set_telegram_alerter HypeBot.telegram_alerter].
  rewrite (@send_text_alert_suppressed
             {| TelegramAlerter.last_alert_time := Some stamp |} stamp
             eq_refl Htext).
  reflexivity.
Qed.

(** Whatever the voice attempt does, a text attempt made within the
    cooldown of a voice stamp cannot add a second delivery. *)
Lemma send_alert_one_delivery :
  (forall stamp, delivery (voice io) = Some stamp ->
                 now_at_check (text io) < stamp + cooldown is_urgent) ->
  (alerts_delivered
     (snd (HypeBot.send_alert TELEGRAM_CHAT_ID self analysis io)) <= 1)%nat.
Proof.
  intros Hsoon.
  destruct (TelegramAlerter.can_send_alert
              (HypeBot.telegram_alerter self) is_urgent
              (now_at_check (voice io))) eqn:Hgate.
  - destruct (delivery (voice io)) as [stamp |] eqn:Hvoice.
    + rewrite (send_alert_voice_first Hgate Hvoice (Hsoon stamp eq_refl)).
      cbn. lia.
    + unfold HypeBot.send_alert. rewrite chat_id_configured.
      cbn [negb]. fold is_urgent.
      unfold TelegramAlerter.send_voice_alert. rewrite Hgate, Hvoice.
      cbn [config.ENABLE_VOICE_MESSAGES negb orb].
      cbn [HypeBot.set_telegram_alerter HypeBot.telegram_alerter].
      unfold TelegramAlerter.send_text_alert.
      destruct (negb config.ENABLE_TEXT_ALERTS || _);
        [cbn; lia |].
      destruct (delivery (text io)); cbn; lia.
  - unfold HypeBot.send_alert. rewrite chat_id_configured.
    cbn [negb]. fold is_urgent.
    unfold TelegramAlerter.send_voice_alert. rewrite Hgate.
    cbn [config.ENABLE_VOICE_MESSAGES negb orb].
    cbn [HypeBot.set_telegram_alerter HypeBot.telegram_alerter].
    unfold TelegramAlerter.send_text_alert.
    destruct (negb config.ENABLE_TEXT_ALERTS || _);
      [cbn; lia |].
    destruct (delivery (text io)); cbn; lia.
Qed.

(** C10: with the chat configured, both channels enabled and both
    cooldowns positive, [send_alert] tries the voice alert first; when it
    is delivered, [last_alert_time] becomes the instant read after the
    delivery, and the text alert, tried within the cooldown of that
    instant, is held back by the gate: the events are the voice message,
    its two log lines and the line of the skipped text alert.  In every
    case at most one of the two channels delivers. *)
Theorem voice_delivery_suppresses_text (stamp : datetime) :
  config.ENABLE_VOICE_MESSAGES = true
  /\ config.ENABLE_TEXT_ALERTS = true
  /\ 0 < cooldown false
  /\ 0 < cooldown true
  /\ (TelegramAlerter.can_send_alert
        (HypeBot.telegram_alerter self) is_urgent (now_at_check (voice io))
      = true ->
      delivery (voice io) = Some stamp ->
      now_at_check (text io) < stamp + cooldown is_urgent ->
      let '(after, events) :=
        HypeBot.send_alert TELEGRAM_CHAT_ID self analysis io in
      TelegramAlerter.last_alert_time (HypeBot.telegram_alerter after)
      = Some stamp
      /\ TelegramAlerter.can_send_alert
           (HypeBot.telegram_alerter after) is_urgent (now_at_check (text io))
         = false
      /\ events
         = [send_voice is_urgent;
            log_info "Voice alert sent successfully";
            log_info (if is_urgent
                      then "CRITICAL voice alert sent successfully"
                      else "Regular voice alert sent successfully");
            log_info "Text alert skipped (cooldown or disabled)"]
      /\ alerts_delivered events = 1%nat)
  /\ ((forall t, delivery (voice io) = Some t ->
                 now_at_check (text io) < t + cooldown is_urgent) ->
      (alerts_delivered
         (snd (HypeBot.send_alert TELEGRAM_CHAT_ID self analysis io))
       <= 1)%nat).
Proof.
  split; [reflexivity |]. split; [reflexivity |].
  split; [reflexivity |]. split; [reflexivity |].
  split; [| exact send_alert_one_delivery].
  intros Hgate Hvoice Htext.
  rewrite (send_alert_voice_first Hgate Hvoice Htext).
  cbn [HypeBot.set_telegram_alerter HypeBot.telegram_alerter
       TelegramAlerter.last_alert_time].
  split; [reflexivity |].
  split; [| split; [reflexivity | destruct is_urgent; reflexivity]].
  apply (@can_send_alert_cooling
           {| TelegramAlerter.last_alert_time := Some stamp |}
           is_urgent stamp _ eq_refl Htext).
Qed.
End Channels.

(** * The statements at work on concrete runs *)

(** A new analyzer gives no alert; five prices of 42 and one of 40 give
    the target alert; five prices equal to the target give it too. *)
Lemma should_alert_order_witness :
  PriceAnalyzer.should_alert sample_lib PriceAnalyzer.default
  = (false, no_info)
  /\ PriceAnalyzer.should_alert sample_lib drop_below_target
     = (true, below_target_info 40 41)
  /\ reason (snd (PriceAnalyzer.should_alert
                    sample_lib (flat_series 41 5)))
     = Some current_price_below_target.
Proof.
  split; [| split].
  - destruct (should_alert_order sample_lib PriceAnalyzer.default)
      as [H _].
    apply H. simpl. lia.
  - destruct (should_alert_order sample_lib drop_below_target) as [_ H].
    destruct H as [H _]; [simpl; lia |].
    apply H. change (40 <= 41)%R. lra.
  - destruct (should_alert_order sample_lib (flat_series 41 5)) as [_ H].
    destruct H as (_ & _ & _ & _ & H); [simpl; lia |].
    apply H. reflexivity.
Defined.

(** Nothing is urgent for a new analyzer, and five prices of 41 are. *)
Lemma is_urgent_alert_spec_witness :
  PriceAnalyzer.is_urgent_alert sample_lib PriceAnalyzer.default = false
  /\ PriceAnalyzer.is_urgent_alert sample_lib (flat_series 41 5) = true.
Proof.
  split.
  - destruct (is_urgent_alert_spec sample_lib PriceAnalyzer.default)
      as [H _].
    apply H. simpl. lia.
  - destruct (is_urgent_alert_spec sample_lib (flat_series 41 5))
      as (_ & H & _).
    apply H; [simpl; lia |].
    left. change (41 <= 415 / 10)%R. lra.
Defined.


(** With the sample library the probability of the falling series is
    between 0 and 1, and that of a history of six prices is 0. *)
Lemma predict_price_drop_probability_spec_witness :
  (0 <= PriceAnalyzer.predict_price_drop_probability sample_lib falling_tail
   <= 1)%R
  /\ PriceAnalyzer.predict_price_drop_probability
       sample_lib drop_below_target
     = 0%R.
Proof.
  split.
  - apply (predict_price_drop_probability_spec
             sample_lib falling_tail sigmoid_range (fun z => eq_refl)).
  - destruct (predict_price_drop_probability_spec
                sample_lib drop_below_target sigmoid_range
                (fun z => eq_refl)) as [H _].
    apply H. simpl. lia.
Defined.


(** Six prices are too few for a trend, and twelve prices of 10 move
    sideways. *)
Lemma get_price_trend_rules_witness :
  PriceAnalyzer.get_price_trend drop_below_target = insufficient_data
  /\ PriceAnalyzer.get_price_trend (flat_series 10 12) = sideways.
Proof.
  split.
  - destruct (get_price_trend_rules drop_below_target) as [H _].
    apply H. simpl. lia.
  - destruct (get_price_trend_rules (flat_series 10 12)) as (_ & H & _).
    destruct H as (_ & _ & _ & _ & H); [simpl; lia |].
    apply H. change (10 = (10 + (10 + (10 + (10 + (10 + 0))))) / INR 5)%R.
    simpl. field.
Defined.

(** A new bot whose first fetch fails is still a new bot, and has sent
    no alert. *)
Lemma failed_fetch_leaves_state_witness :
  fst (HypeBot.send_regular_update
         sample_chat_id sample_lib HypeBot.init failed_cycle)
  = HypeBot.init
  /\ alerts_delivered
       (snd (HypeBot.send_regular_update
               sample_chat_id sample_lib HypeBot.init failed_cycle))
     = 0.
Proof.
  pose proof (failed_fetch_leaves_state
                sample_chat_id sample_lib HypeBot.init failed_cycle []
                eq_refl) as H.
  destruct (HypeBot.send_regular_update
              sample_chat_id sample_lib HypeBot.init failed_cycle)
    as [after events].
  destruct H as (H1 & _ & _ & _ & H2 & _). split; assumption.
Defined.

(** The alert for the drop below the target, on a new bot: the voice
    message goes out and is the only delivery. *)
Lemma voice_delivery_suppresses_text_witness :
  alerts_delivered
    (snd (HypeBot.send_alert
            sample_chat_id HypeBot.init
            (PriceAnalyzer.get_analysis_summary sample_lib drop_below_target)
            prompt_alert))
  = 1.
Proof.
  destruct (@voice_delivery_suppresses_text
              sample_chat_id eq_refl HypeBot.init
              (PriceAnalyzer.get_analysis_summary sample_lib drop_below_target)
              prompt_alert 2000000%Z)
    as (_ & _ & _ & _ & H & _).
  assert (Hsoon : (now_at_check (text prompt_alert)
                   < 2000000
                     + cooldown
                         (Analysis.is_urgent
                            (PriceAnalyzer.get_analysis_summary
                               sample_lib drop_below_target)))%Z).
  { destruct (Analysis.is_urgent _); cbn; lia. }
  specialize (H eq_refl eq_refl Hsoon).
  destruct (HypeBot.send_alert _ _ _ _) as [after events].
  apply H.
Defined.

(** * Further properties of the analyzer *)

(** ** One insert *)

Lemma slice_last_cons_full (A : Type) (n : nat) (x : A) (l : list A) :
  length l = n -> slice_last n (x :: l) = l.
Proof.
  intros H. unfold slice_last. cbn [length].
  replace (S (length l) - n) with 1 by lia. reflexivity.
Qed.

(** X1: an insert into a history of fewer than 100 prices appends the
    price and evicts nothing; an insert into a history of 100 prices
    evicts the oldest price and no other; either way the length after the
    insert is [min 100 (length + 1)]. *)
Theorem add_price_fifo (self : PriceAnalyzer.t) (price : R) :
  let prices := PriceAnalyzer.price_history self in
  let after :=
    PriceAnalyzer.price_history (PriceAnalyzer.add_price self price) in
  (length prices < 100 -> after = prices ++ [price])
  /\ (length prices = 100 -> after = tl prices ++ [price])
  /\ length after = Nat.min 100 (S (length prices)).
Proof.
  intros prices after. unfold after, prices. rewrite add_price_history.
  generalize (PriceAnalyzer.price_history self). intros h.
  split; [| split].
  - intros H. apply slice_last_all. rewrite length_app. simpl. lia.
  - intros H. destruct h as [| x rest]; [discriminate |].
    cbn [tl app length] in *. apply slice_last_cons_full.
    rewrite length_app. cbn [length]. lia.
  - rewrite slice_last_length, length_app. cbn [length]. lia.
Qed.

Lemma add_price_fifo_witness :
  PriceAnalyzer.price_history
    (PriceAnalyzer.add_price drop_below_target 39)
  = [42; 42; 42; 42; 42; 40; 39]%R
  /\ PriceAnalyzer.price_history
       (PriceAnalyzer.add_price (flat_series 42 100) 39)
     = tl (PriceAnalyzer.price_history (flat_series 42 100)) ++ [39%R].
Proof.
  split.
  - destruct (add_price_fifo drop_below_target 39) as [H _].
    apply H. simpl. lia.
  - destruct (add_price_fifo (flat_series 42 100) 39) as (_ & H & _).
    apply H. rewrite flat_series_history, repeat_length. reflexivity.
Defined.

(** ** The decision and its reason *)

Lemma ALERT_THRESHOLD_pos : (0 < config.ALERT_THRESHOLD)%R.
Proof. unfold config.ALERT_THRESHOLD. lra. Qed.

(** The four ways [should_alert] can end. *)
Lemma should_alert_cases (lib : MathLib) (self : PriceAnalyzer.t) :
  let stats := PriceAnalyzer.calculate_statistics self in
  let current := Stats.current stats in
  let target := PriceAnalyzer.target_price self in
  let k := PriceAnalyzer.std_deviations self in
  let lower_bound := (Stats.mean stats - k * Stats.std stats)%R in
  let probability := PriceAnalyzer.predict_price_drop_probability lib self in
  PriceAnalyzer.should_alert lib self = (false, no_info)
  \/ (5 <= length (PriceAnalyzer.price_history self)
      /\ (current <= target)%R
      /\ PriceAnalyzer.should_alert lib self
         = (true, below_target_info current target))
  \/ (5 <= length (PriceAnalyzer.price_history self)
      /\ (target < current <= lower_bound)%R
      /\ PriceAnalyzer.should_alert lib self
         = (true, std_deviations_info current lower_bound k))
  \/ (5 <= length (PriceAnalyzer.price_history self)
      /\ (target < current)%R /\ (lower_bound < current)%R
      /\ (config.ALERT_THRESHOLD <= probability)%R
      /\ PriceAnalyzer.should_alert lib self
         = (true, drop_probability_info current probability
                                        config.ALERT_THRESHOLD)).
Proof.
  intros stats current target k lower_bound probability.
  destruct (Nat.lt_ge_cases (length (PriceAnalyzer.price_history self)) 5)
    as [Hn | Hn].
  { left. now apply should_alert_short. }
  destruct (Rle_lt_dec current target) as [H1 | H1].
  { right. left. repeat split; auto.
    now apply should_alert_below_target. }
  destruct (Rle_lt_dec current lower_bound) as [H2 | H2].
  { right. right. left. repeat split; auto.
    now apply should_alert_std_deviations. }
  destruct (Rle_lt_dec config.ALERT_THRESHOLD probability) as [H3 | H3].
  - right. right. right. repeat split; auto.
    now apply should_alert_drop_probability.
  - left. now apply should_alert_none.
Qed.

(** X2: the boolean and the dictionary of [should_alert] agree: there is
    an alert exactly when the dictionary holds a reason, and the price
    reported with the reason is the current price of the statistics. *)
Theorem should_alert_reason_iff (lib : MathLib) (self : PriceAnalyzer.t) :
  let '(alert, info) := PriceAnalyzer.should_alert lib self in
  (alert = true <-> reason info <> None)
  /\ (alert = false <-> info = no_info)
  /\ (alert = true ->
      match info with
      | no_info => False
      | below_target_info current_price _
      | std_deviations_info current_price _ _
      | drop_probability_info current_price _ _ =>
          current_price
          = Stats.current (PriceAnalyzer.calculate_statistics self)
      end).
Proof.
  destruct (should_alert_cases lib self)
    as [E | [(_ & _ & E) | [(_ & _ & E) | (_ & _ & _ & _ & E)]]];
    rewrite E; cbn [reason]; repeat split;
    intros; try congruence; try discriminate; reflexivity.
Qed.

(** X3: the probability rule cannot fire on fewer than 10 prices: an
    alert with reason [high_drop_probability] comes from a history of at
    least 10 prices whose deviation is not zero. *)
Theorem high_drop_probability_needs_10_prices
  (lib : MathLib) (self : PriceAnalyzer.t) :
  reason (snd (PriceAnalyzer.should_alert lib self))
  = Some high_drop_probability ->
  10 <= length (PriceAnalyzer.price_history self)
  /\ Stats.std (PriceAnalyzer.calculate_statistics self) <> 0%R.
Proof.
  intros Hr. pose proof ALERT_THRESHOLD_pos as Hpos.
  destruct (should_alert_cases lib self)
    as [E | [(_ & _ & E) | [(_ & _ & E) | (_ & _ & _ & Hp & E)]]];
    rewrite E in Hr; cbn [reason snd] in Hr; try discriminate.
  split.
  - destruct (Nat.lt_ge_cases
                (length (PriceAnalyzer.price_history self)) 10)
      as [Hn | Hn]; [| exact Hn].
    rewrite (predict_short lib self Hn) in Hp. lra.
  - intros Hs. rewrite (predict_no_deviation lib self Hs) in Hp. lra.
Qed.

(** ** Histories without variation *)

Section Variation.
Local Open Scope R_scope.
Implicit Types (l : list R) (x m : R).

Lemma np_sum_squares_zero l m :
  np.sum (map (fun x => Rsqr (x - m)) l) = 0 ->
  forall x, In x l -> x = m.
Proof.
  induction l as [| a l IH]; intros Hs x Hx; [contradiction |].
  change (Rsqr (a - m) + np.sum (map (fun x => Rsqr (x - m)) l) = 0) in Hs.
  pose proof (Rle_0_sqr (a - m)) as Ha.
  pose proof (np_sum_squares_nonneg l m) as Hl.
  assert (Ha0 : Rsqr (a - m) = 0) by lra.
  assert (Hl0 : np.sum (map (fun x => Rsqr (x - m)) l) = 0) by lra.
  destruct Hx as [<- | Hx]; [| now apply IH].
  apply Rsqr_0_uniq in Ha0. lra.
Qed.

Lemma np_sum_squares_all_equal l m :
  (forall x, In x l -> x = m) ->
  np.sum (map (fun x => Rsqr (x - m)) l) = 0.
Proof.
  induction l as [| a l IH]; intros H; [reflexivity |].
  change (Rsqr (a - m) + np.sum (map (fun x => Rsqr (x - m)) l) = 0).
  rewrite IH by (intros x Hx; apply H; now right).
  rewrite (H a) by now left.
  unfold Rsqr. lra.
Qed.

(** [np.std] is zero exactly on the lists whose items are all the mean. *)
Lemma np_std_zero_iff l :
  l <> [] ->
  np.std l = 0 <-> forall x, In x l -> x = np.mean l.
Proof.
  intros Hne. destruct (np_std_spec Hne) as [_ Hsq].
  assert (Hn : 0 < INR (length l)).
  { apply lt_0_INR. destruct l; [congruence | simpl; lia]. }
  split.
  - intros H0. apply np_sum_squares_zero.
    rewrite <- Hsq, H0. unfold Rsqr. lra.
  - intros Hall. apply np_sum_squares_all_equal in Hall.
    rewrite Hall in Hsq.
    apply Rmult_integral in Hsq. destruct Hsq as [Hsq | Hsq]; [| lra].
    apply Rsqr_0_uniq. exact Hsq.
Qed.

End Variation.





(** ** Trend labels read backwards *)

(** X6: each trend label tells which comparisons held: the six labels
    exclude one another, [insufficient_data] means fewer than 10 prices,
    [sideways] means the current price equals the mean of the last 5, and
    the four others mean the comparisons of their rule, the strong labels
    with the strict order of the two means and the weak ones without. *)
Theorem get_price_trend_inversion (self : PriceAnalyzer.t) :
  let prices := PriceAnalyzer.price_history self in
  let sma_5 := np.mean (slice_last 5 prices) in
  let sma_10 := np.mean (slice_last 10 prices) in
  let current := last prices 0%R in
  let trend := PriceAnalyzer.get_price_trend self in
  (trend = insufficient_data <-> length prices < 10)
  /\ (trend = strong_uptrend
      <-> 10 <= length prices /\ (sma_10 < sma_5 < current)%R)
  /\ (trend = uptrend
      <-> 10 <= length prices /\ (sma_5 < current)%R /\ (sma_5 <= sma_10)%R)
  /\ (trend = strong_downtrend
      <-> 10 <= length prices /\ (current < sma_5 < sma_10)%R)
  /\ (trend = downtrend
      <-> 10 <= length prices /\ (current < sma_5)%R /\ (sma_10 <= sma_5)%R)
  /\ (trend = sideways <-> 10 <= length prices /\ current = sma_5).
Proof.
  intros prices sma_5 sma_10 current trend. unfold trend.
  destruct (Nat.lt_ge_cases (length prices) 10) as [Hn | Hn].
  { rewrite (get_price_trend_short self Hn).
    repeat split; intros; try discriminate; try lia; tauto. }
  rewrite (get_price_trend_long self Hn).
  fold prices. fold sma_5. fold sma_10. fold current.
  destruct (Rlt_dec sma_5 current) as [H1 | H1];
    destruct (Rlt_dec sma_10 sma_5) as [H2 | H2];
    destruct (Rlt_dec current sma_5) as [H3 | H3];
    destruct (Rlt_dec sma_5 sma_10) as [H4 | H4];
    try lra;
    repeat match goal with
      | H : (?a < ?b)%R |- context [Rltb ?a ?b] =>
          rewrite (proj2 (Rltb_lt a b) H)
      | H : ~ (?a < ?b)%R |- context [Rltb ?a ?b] =>
          rewrite (proj2 (Rltb_ge a b)) by lra
      end;
    cbn [andb];
    repeat split; intros; try discriminate; try lia; try lra;
    try reflexivity;
    repeat match goal with
      | H : _ /\ _ |- _ => destruct H
      end; try lra.
Qed.

(** ** Urgency and the decision together *)

Lemma thresholds_coincide :
  (config.TARGET_PRICE + 5 / 10 = config.CRITICAL_PRICE_THRESHOLD)%R.
Proof. unfold config.TARGET_PRICE, config.CRITICAL_PRICE_THRESHOLD. lra. Qed.

Lemma thresholds_ordered :
  (config.ALERT_THRESHOLD <= config.STRONG_DOWNTREND_THRESHOLD)%R.
Proof.
  unfold config.ALERT_THRESHOLD, config.STRONG_DOWNTREND_THRESHOLD. lra.
Qed.

(** X7: with the thresholds of [config.py] the test "very close to the
    target" of [is_urgent_alert] is the test "critical price" over again,
    so from 5 prices on an alert is urgent exactly when the current price
    is at most 41.5 or a strong downtrend comes with a probability of at
    least 0.85; below 10 prices only the price test is left. *)
Theorem is_urgent_alert_price_test
  (lib : MathLib) (self : PriceAnalyzer.t) :
  let prices := PriceAnalyzer.price_history self in
  let current := Stats.current (PriceAnalyzer.calculate_statistics self) in
  let probability := PriceAnalyzer.predict_price_drop_probability lib self in
  let trend := PriceAnalyzer.get_price_trend self in
  5 <= length prices ->
  (PriceAnalyzer.is_urgent_alert lib self = true
   <-> (current <= 415 / 10)%R
       \/ (trend = strong_downtrend /\ (85 / 100 <= probability)%R))
  /\ (length prices < 10 ->
      PriceAnalyzer.is_urgent_alert lib self = true
      <-> (current <= 415 / 10)%R).
Proof.
  intros prices current probability trend Hlen.
  pose proof (is_urgent_alert_long lib self Hlen) as Hiff.
  pose proof thresholds_coincide as Hc.
  unfold config.CRITICAL_PRICE_THRESHOLD, config.TARGET_PRICE,
    config.STRONG_DOWNTREND_THRESHOLD in *.
  fold current in Hiff. fold probability in Hiff. fold trend in Hiff.
  split.
  - rewrite Hiff. split.
    + intros [H | [H | H]]; [now left | now right | left; lra].
    + intros [H | H]; [now left | right; now left].
  - intros Hshort. rewrite Hiff.
    assert (Ht : trend = insufficient_data)
      by (apply get_price_trend_short; exact Hshort).
    split.
    + intros [H | [[H _] | H]]; [exact H | congruence | lra].
    + intros H. now left.
Qed.

Lemma is_urgent_alert_price_test_witness :
  PriceAnalyzer.is_urgent_alert sample_lib drop_below_target = true.
Proof.
  assert (Hlen : 5 <= length (PriceAnalyzer.price_history
                                drop_below_target))
    by (rewrite drop_below_target_history; simpl; lia).
  destruct (is_urgent_alert_price_test sample_lib drop_below_target Hlen)
    as [_ H].
  apply H.
  - rewrite drop_below_target_history. simpl. lia.
  - rewrite drop_below_target_current. lra.
Defined.

(** X8: for an analyzer built on the configured target, an urgent
    reading without an alert can only be a current price above the target
    and at most half a unit above it; a strong downtrend with a
    probability of at least 0.85 never goes without an alert. *)
Theorem urgent_without_alert (lib : MathLib) (self : PriceAnalyzer.t) :
  let current := Stats.current (PriceAnalyzer.calculate_statistics self) in
  let probability := PriceAnalyzer.predict_price_drop_probability lib self in
  PriceAnalyzer.target_price self = config.TARGET_PRICE ->
  PriceAnalyzer.is_urgent_alert lib self = true ->
  fst (PriceAnalyzer.should_alert lib self) = false ->
  (config.TARGET_PRICE < current <= config.TARGET_PRICE + 5 / 10)%R
  /\ ~ (PriceAnalyzer.get_price_trend self = strong_downtrend
        /\ (config.STRONG_DOWNTREND_THRESHOLD <= probability)%R).
Proof.
  intros current probability Htarget Hurgent Hquiet.
  assert (Hlen : 5 <= length (PriceAnalyzer.price_history self)).
  { destruct (Nat.lt_ge_cases
                (length (PriceAnalyzer.price_history self)) 5)
      as [H | H]; [| exact H].
    rewrite (is_urgent_alert_short lib self H) in Hurgent. discriminate. }
  apply (is_urgent_alert_long lib self Hlen) in Hurgent.
  fold current in Hurgent. fold probability in Hurgent.
  pose proof thresholds_coincide as Hc.
  pose proof thresholds_ordered as Ho.
  destruct (Rle_lt_dec current (PriceAnalyzer.target_price self))
    as [H1 | H1].
  { rewrite (should_alert_below_target lib self Hlen H1) in Hquiet.
    discriminate. }
  set (lower_bound :=
         (Stats.mean (PriceAnalyzer.calculate_statistics self)
          - PriceAnalyzer.std_deviations self
            * Stats.std (PriceAnalyzer.calculate_statistics self))%R).
  destruct (Rle_lt_dec current lower_bound) as [H2 | H2].
  { rewrite (should_alert_std_deviations lib self Hlen H1 H2) in Hquiet.
    discriminate. }
  destruct (Rle_lt_dec config.ALERT_THRESHOLD probability) as [H3 | H3].
  { rewrite (should_alert_drop_probability lib self Hlen H1 H2 H3)
      in Hquiet.
    discriminate. }
  rewrite Htarget in H1.
  assert (Hno : ~ (PriceAnalyzer.get_price_trend self = strong_downtrend
                   /\ (config.STRONG_DOWNTREND_THRESHOLD <= probability)%R))
    by (intros [_ H]; lra).
  split; [| exact Hno].
  destruct Hurgent as [H | [H | H]]; [lra | contradiction | lra].
Qed.

Lemma hovering_history :
  PriceAnalyzer.price_history hovering
  = [41; 83 / 2; 41; 83 / 2; 165 / 4]%R.
Proof. reflexivity. Qed.

Lemma hovering_statistics :
  let stats := PriceAnalyzer.calculate_statistics hovering in
  (Stats.current stats = 165 / 4
   /\ Stats.mean stats = 165 / 4
   /\ 0 < Stats.std stats)%R.
Proof.
  assert (Hlen : 5 <= length (PriceAnalyzer.price_history hovering))
    by (rewrite hovering_history; simpl; lia).
  assert (Hne : PriceAnalyzer.price_history hovering <> [])
    by (rewrite hovering_history; discriminate).
  cbv zeta. rewrite (calculate_statistics_long hovering Hlen).
  cbn [Stats.mean Stats.std Stats.current].
  assert (Hmean : np.mean (PriceAnalyzer.price_history hovering)
                  = (165 / 4)%R).
  { rewrite hovering_history. unfold np.mean. simpl. field. }
  split; [reflexivity |]. split; [exact Hmean |].
  destruct (np_std_spec Hne) as [Hpos _].
  destruct (np_std_zero_iff Hne) as [Hzero _].
  destruct Hpos as [Hpos | Hpos]; [exact Hpos |].
  symmetry in Hpos. specialize (Hzero Hpos 41%R).
  rewrite Hmean, hovering_history in Hzero.
  assert (H : (41 = 165 / 4)%R) by (apply Hzero; now left).
  lra.
Qed.

Lemma urgent_without_alert_witness :
  (config.TARGET_PRICE
   < Stats.current (PriceAnalyzer.calculate_statistics hovering)
   <= config.TARGET_PRICE + 5 / 10)%R.
Proof.
  destruct hovering_statistics as (Hcur & Hmean & Hstd).
  assert (Hlen : 5 <= length (PriceAnalyzer.price_history hovering))
    by (rewrite hovering_history; simpl; lia).
  assert (Hshort : length (PriceAnalyzer.price_history hovering) < 10)
    by (rewrite hovering_history; simpl; lia).
  apply (urgent_without_alert sample_lib hovering eq_refl).
  - apply (is_urgent_alert_long sample_lib hovering Hlen).
    left. rewrite Hcur. unfold config.CRITICAL_PRICE_THRESHOLD. lra.
  - rewrite should_alert_none; [reflexivity | exact Hlen | | |].
    + rewrite Hcur. change (41 < 165 / 4)%R. lra.
    + rewrite Hcur, Hmean.
      change (PriceAnalyzer.std_deviations hovering) with 2%R. lra.
    + rewrite (predict_short sample_lib hovering Hshort).
      apply ALERT_THRESHOLD_pos.
Defined.

Lemma sqrt_2_bound : (0 < sqrt 2 <= 3 / 2)%R.
Proof.
  split; [apply sqrt_lt_R0; lra |].
  replace (3 / 2)%R with (sqrt (Rsqr (3 / 2))).
  - apply sqrt_le_1_alt. unfold Rsqr. lra.
  - apply sqrt_Rsqr. lra.
Qed.

Lemma sigmoid_lower (y : R) : (2 / 3 <= y -> 2 / 5 <= sigmoid y)%R.
Proof.
  intros Hy. unfold sigmoid. rewrite Rabs_right by lra.
  apply Rmult_le_reg_r with (1 + y)%R; [lra |].
  replace (y / (1 + y) * (1 + y))%R with y by (field; lra). lra.
Qed.

(** With the sample library, a z-score of 1 or more is a probability of
    0.7 or more. *)
Lemma Phi_sigmoid_lower (z : R) : (1 <= z -> 7 / 10 <= Phi sigmoid z)%R.
Proof.
  intros Hz. unfold Phi.
  destruct sqrt_2_bound as [H0 H1].
  assert (Hy : (2 / 3 <= z / sqrt 2)%R).
  { apply Rmult_le_reg_r with (sqrt 2); [exact H0 |].
    replace (z / sqrt 2 * sqrt 2)%R with z by (field; lra). lra. }
  pose proof (sigmoid_lower Hy). lra.
Qed.

Lemma late_rebound_history :
  PriceAnalyzer.price_history late_rebound
  = [40; 40; 40; 40; 40; 40; 40; 40; 40; 83 / 2]%R.
Proof. reflexivity. Qed.

Lemma late_rebound_statistics :
  let stats := PriceAnalyzer.calculate_statistics late_rebound in
  (Stats.current stats = 83 / 2
   /\ Stats.mean stats = 803 / 20
   /\ Stats.std stats = 9 / 20)%R.
Proof.
  assert (Hlen : 5 <= length (PriceAnalyzer.price_history late_rebound))
    by (rewrite late_rebound_history; simpl; lia).
  assert (Hne : PriceAnalyzer.price_history late_rebound <> [])
    by (rewrite late_rebound_history; discriminate).
  cbv zeta. rewrite (calculate_statistics_long late_rebound Hlen).
  cbn [Stats.mean Stats.std Stats.current].
  assert (Hmean : np.mean (PriceAnalyzer.price_history late_rebound)
                  = (803 / 20)%R).
  { rewrite late_rebound_history. unfold np.mean. simpl. field. }
  split; [reflexivity |]. split; [exact Hmean |].
  destruct (np_std_spec Hne) as [Hpos Hsq].
  rewrite Hmean in Hsq. rewrite late_rebound_history in *.
  cbn [map np.sum fold_right length INR] in Hsq.
  apply Rsqr_inj; [exact Hpos | lra |].
  unfold Rsqr in *. lra.
Qed.

Lemma late_rebound_probability :
  (config.ALERT_THRESHOLD
   <= PriceAnalyzer.predict_price_drop_probability sample_lib late_rebound)%R.
Proof.
  destruct late_rebound_statistics as (Hcur & Hmean & Hstd).
  assert (Hlen : 10 <= length (PriceAnalyzer.price_history late_rebound))
    by (rewrite late_rebound_history; simpl; lia).
  rewrite predict_long; [| exact Hlen | rewrite Hstd; lra].
  cbn [sample_lib scipy_importable norm_cdf].
  rewrite Hmean, Hstd.
  change (PriceAnalyzer.target_price late_rebound) with 41%R.
  unfold config.ALERT_THRESHOLD. apply Phi_sigmoid_lower.
  lra.
Qed.

Lemma late_rebound_alert :
  PriceAnalyzer.should_alert sample_lib late_rebound
  = (true,
     drop_probability_info
       (Stats.current (PriceAnalyzer.calculate_statistics late_rebound))
       (PriceAnalyzer.predict_price_drop_probability sample_lib late_rebound)
       config.ALERT_THRESHOLD).
Proof.
  destruct late_rebound_statistics as (Hcur & Hmean & Hstd).
  apply should_alert_drop_probability.
  - rewrite late_rebound_history. simpl. lia.
  - rewrite Hcur. change (41 < 83 / 2)%R. lra.
  - rewrite Hcur, Hmean, Hstd.
    change (PriceAnalyzer.std_deviations late_rebound) with 2%R. lra.
  - exact late_rebound_probability.
Qed.

Lemma high_drop_probability_needs_10_prices_witness :
  10 <= length (PriceAnalyzer.price_history late_rebound)
  /\ Stats.std (PriceAnalyzer.calculate_statistics late_rebound) <> 0%R.
Proof.
  apply (high_drop_probability_needs_10_prices sample_lib late_rebound).
  rewrite late_rebound_alert. reflexivity.
Defined.

(** ** The summary of a short history *)

Lemma add_price_length (self : PriceAnalyzer.t) (price : R) :
  length (PriceAnalyzer.price_history (PriceAnalyzer.add_price self price))
  = Nat.min 100 (S (length (PriceAnalyzer.price_history self))).
Proof.
  rewrite add_price_history, slice_last_length, length_app.
  cbn [length]. lia.
Qed.

Lemma add_price_current (self : PriceAnalyzer.t) (price : R) :
  last (PriceAnalyzer.price_history (PriceAnalyzer.add_price self price))
       0%R
  = price.
Proof.
  rewrite add_price_history, slice_last_last by lia. apply last_last.
Qed.

(** X9: the summary made right after an insert reports the inserted price
    as the current price only once the history holds 5 prices; for the
    first four inserts it reports a current price of 0, no trend, a
    probability of 0, no alert and no urgency, whatever the price is.
    The length it reports counts the insert and stops at 100. *)
Theorem summary_after_add_price
  (lib : MathLib) (self : PriceAnalyzer.t) (price : R) :
  let before := length (PriceAnalyzer.price_history self) in
  let summary :=
    PriceAnalyzer.get_analysis_summary
      lib (PriceAnalyzer.add_price self price) in
  (before < 4 ->
   Analysis.current_price summary = 0%R
   /\ Analysis.trend summary = insufficient_data
   /\ Analysis.drop_probability summary = 0%R
   /\ Analysis.should_alert summary = false
   /\ Analysis.alert_info summary = no_info
   /\ Analysis.is_urgent summary = false)
  /\ (4 <= before -> Analysis.current_price summary = price)
  /\ Analysis.price_history_length summary = Nat.min 100 (S before)
  /\ Analysis.target_price summary = PriceAnalyzer.target_price self.
Proof.
  intros before summary.
  pose proof (add_price_length self price) as Hlen. fold before in Hlen.
  pose proof (add_price_fields self price) as (Ht & _ & _).
  unfold summary, PriceAnalyzer.get_analysis_summary.
  set (after := PriceAnalyzer.add_price self price) in *.
  destruct (PriceAnalyzer.should_alert lib after) as [alert info] eqn:E.
  cbn [Analysis.current_price Analysis.trend Analysis.drop_probability
       Analysis.should_alert Analysis.alert_info Analysis.is_urgent
       Analysis.price_history_length Analysis.target_price].
  split; [| split; [| split; [exact Hlen | exact Ht]]].
  - intros Hshort.
    assert (H5 : length (PriceAnalyzer.price_history after) < 5) by lia.
    assert (H10 : length (PriceAnalyzer.price_history after) < 10) by lia.
    rewrite (should_alert_short lib after H5) in E. injection E as <- <-.
    rewrite (calculate_statistics_short after H5).
    rewrite (get_price_trend_short after H10).
    rewrite (predict_short lib after H10).
    rewrite (is_urgent_alert_short lib after H5).
    repeat split.
  - intros Hlong.
    assert (H5 : 5 <= length (PriceAnalyzer.price_history after)) by lia.
    rewrite (calculate_statistics_long after H5). cbn [Stats.current].
    apply add_price_current.
Qed.

Lemma summary_after_add_price_witness :
  Analysis.current_price
    (PriceAnalyzer.get_analysis_summary
       sample_lib (PriceAnalyzer.add_price PriceAnalyzer.default 40))
  = 0%R
  /\ Analysis.current_price
       (PriceAnalyzer.get_analysis_summary
          sample_lib (PriceAnalyzer.add_price (flat_series 42 4) 40))
     = 40%R.
Proof.
  split.
  - destruct (summary_after_add_price
                sample_lib PriceAnalyzer.default 40) as [H _].
    apply H. simpl. lia.
  - destruct (summary_after_add_price
                sample_lib (flat_series 42 4) 40) as (_ & H & _).
    apply H. simpl. lia.
Defined.

(** ** The gate in time *)

Lemma cooldown_ordered : (0 < cooldown true <= cooldown false)%Z.
Proof. unfold cooldown, timedelta_minutes. cbn. lia. Qed.

Lemma can_send_alert_open_iff
      (self : TelegramAlerter.t) (is_urgent : bool) (now : datetime) :
  TelegramAlerter.can_send_alert self is_urgent now = true
  <-> match TelegramAlerter.last_alert_time self with
      | None => True
      | Some t => (t + cooldown is_urgent <= now)%Z
      end.
Proof.
  destruct (TelegramAlerter.last_alert_time self) as [t |] eqn:E.
  - apply can_send_alert_after. exact E.
  - unfold TelegramAlerter.can_send_alert. rewrite E. cbn. tauto.
Qed.

(** X10: for a given alerter the gate, once open, stays open as the clock
    moves on; whenever it is open to a non-urgent alert it is open to an
    urgent one; and before the first stamped alert it is never shut. *)
Theorem can_send_alert_monotone
  (self : TelegramAlerter.t) (is_urgent : bool) (now later : datetime) :
  ((now <= later)%Z ->
   TelegramAlerter.can_send_alert self is_urgent now = true ->
   TelegramAlerter.can_send_alert self is_urgent later = true)
  /\ (TelegramAlerter.can_send_alert self false now = true ->
      TelegramAlerter.can_send_alert self true now = true)
  /\ (TelegramAlerter.can_send_alert self is_urgent now = false ->
      exists t, TelegramAlerter.last_alert_time self = Some t
                /\ (now < t + cooldown is_urgent)%Z).
Proof.
  pose proof cooldown_ordered as Hc.
  rewrite !can_send_alert_open_iff.
  pose proof (can_send_alert_open_iff self is_urgent now) as Hiff.
  destruct (TelegramAlerter.last_alert_time self) as [t |].
  - repeat split; try lia.
    intros Hshut. exists t. split; [reflexivity |].
    destruct (Z.lt_ge_cases now (t + cooldown is_urgent)) as [H | H];
      [exact H |].
    apply Hiff in H. congruence.
  - repeat split; auto.
    intros Hshut. rewrite (proj2 Hiff I) in Hshut. discriminate.
Qed.

Lemma can_send_alert_monotone_witness :
  TelegramAlerter.can_send_alert
    {| TelegramAlerter.last_alert_time := Some 0%Z |} true 400000000%Z
  = true.
Proof.
  destruct (can_send_alert_monotone
              {| TelegramAlerter.last_alert_time := Some 0%Z |}
              false 300000000%Z 400000000%Z) as (H1 & _ & _).
  destruct (can_send_alert_monotone
              {| TelegramAlerter.last_alert_time := Some 0%Z |}
              true 400000000%Z 400000000%Z) as (_ & H2 & _).
  apply H2. apply H1; [lia | reflexivity].
Defined.

(** * Further properties of the bot *)

(** ** One alert *)

Section OneAlert.
Variable TELEGRAM_CHAT_ID : option String.string.
Variable self : HypeBot.t.
Variable analysis : Analysis.t.
Variable io : AlertIO.
Local Open Scope Z_scope.

Let is_urgent := Analysis.is_urgent analysis.
Let alerter := HypeBot.telegram_alerter self.

(** [send_alert] touches nothing of the bot but its alerter. *)
Lemma send_alert_frame :
  let after := fst (HypeBot.send_alert TELEGRAM_CHAT_ID self analysis io) in
  HypeBot.price_analyzer after = HypeBot.price_analyzer self
  /\ HypeBot.is_running after = HypeBot.is_running self
  /\ HypeBot.last_alert_time after = HypeBot.last_alert_time self.
Proof.
  unfold HypeBot.send_alert.
  destruct (truthy TELEGRAM_CHAT_ID); cbn [negb fst]; [| auto].
  destruct (TelegramAlerter.send_voice_alert _ _ _) as [[? ?] ?].
  destruct (TelegramAlerter.send_text_alert _ _ _) as [[? ?] ?].
  cbn. auto.
Qed.

Lemma set_telegram_alerter_same :
  HypeBot.set_telegram_alerter self (HypeBot.telegram_alerter self) = self.
Proof. destruct self. reflexivity. Qed.

(** X11: while the cooldown of the last stamped alert runs for both
    checks of the gate, [send_alert] delivers nothing on either channel
    and leaves the bot, its stamp included, as it was. *)
Theorem send_alert_in_cooldown (t : datetime) :
  TelegramAlerter.last_alert_time alerter = Some t ->
  now_at_check (voice io) < t + cooldown is_urgent ->
  now_at_check (text io) < t + cooldown is_urgent ->
  let '(after, events) :=
    HypeBot.send_alert TELEGRAM_CHAT_ID self analysis io in
  after = self
  /\ alerts_delivered events = 0%nat
  /\ (truthy TELEGRAM_CHAT_ID = true ->
      events
      = [log_info "Voice alert skipped (cooldown or disabled)";
         log_info "Text alert skipped (cooldown or disabled)"]).
Proof.
  intros Ht Hvoice Htext. unfold HypeBot.send_alert.
  destruct (truthy TELEGRAM_CHAT_ID); cbn [negb].
  - fold is_urgent. fold alerter.
    unfold TelegramAlerter.send_voice_alert.
    rewrite (@can_send_alert_cooling alerter is_urgent t _ Ht Hvoice).
    cbn [negb orb]. rewrite orb_true_r.
    unfold alerter at 1. rewrite set_telegram_alerter_same.
    fold alerter. unfold TelegramAlerter.send_text_alert.
    rewrite (@can_send_alert_cooling alerter is_urgent t _ Ht Htext).
    cbn [negb orb]. rewrite orb_true_r.
    split; [apply set_telegram_alerter_same |].
    split; reflexivity.
  - repeat split. discriminate.
Qed.

(** X12: a voice alert that fails does not stand in the way of the text
    alert: with the gate open at both checks, a voice attempt that raises
    and a text message that is delivered, the bot is stamped with the
    instant of the text delivery and the text alert is the one delivery
    of the call. *)
Theorem text_alert_after_failed_voice (t : datetime) :
  truthy TELEGRAM_CHAT_ID = true ->
  TelegramAlerter.can_send_alert alerter is_urgent
                                 (now_at_check (voice io)) = true ->
  delivery (voice io) = None ->
  TelegramAlerter.can_send_alert alerter is_urgent
                                 (now_at_check (text io)) = true ->
  delivery (text io) = Some t ->
  let '(after, events) :=
    HypeBot.send_alert TELEGRAM_CHAT_ID self analysis io in
  TelegramAlerter.last_alert_time (HypeBot.telegram_alerter after) = Some t
  /\ alerts_delivered events = 1%nat
  /\ In (send_alert_message is_urgent) events
  /\ ~ In (send_voice is_urgent) events
  /\ In (log_error "Failed to send voice alert") events.
Proof.
  intros Hchat Hgate1 Hvoice Hgate2 Htext. unfold HypeBot.send_alert.
  rewrite Hchat. cbn [negb]. fold is_urgent. fold alerter.
  unfold TelegramAlerter.send_voice_alert.
  rewrite Hgate1, Hvoice.
  cbn [config.ENABLE_VOICE_MESSAGES negb orb].
  unfold alerter at 1. rewrite set_telegram_alerter_same. fold alerter.
  unfold TelegramAlerter.send_text_alert.
  rewrite Hgate2, Htext.
  cbn [config.ENABLE_TEXT_ALERTS negb orb].
  cbn [HypeBot.set_telegram_alerter HypeBot.telegram_alerter
       TelegramAlerter.last_alert_time].
  split; [reflexivity |].
  split; [destruct is_urgent; reflexivity |].
  split; [cbn; auto |].
  split; [| cbn; auto].
  cbn. intros H.
  repeat match goal with
    | H : _ \/ _ |- _ => destruct H
    end; try discriminate; auto.
Qed.
End OneAlert.

(** ** Cycles *)

Section Cycles.
Variable TELEGRAM_CHAT_ID : option String.string.
Variable lib : MathLib.
Implicit Types (self : HypeBot.t) (io : CycleIO) (cycles : list CycleIO).

Lemma alerts_delivered_app (a b : list Event) :
  alerts_delivered (a ++ b) = alerts_delivered a + alerts_delivered b.
Proof. unfold alerts_delivered. rewrite filter_app, length_app. lia. Qed.

(** What a cycle does to the analyzer and to the running flag, whatever
    the channels answer. *)
Lemma send_regular_update_frame self io :
  let after :=
    fst (HypeBot.send_regular_update TELEGRAM_CHAT_ID lib self io) in
  HypeBot.price_analyzer after
  = (if truthy TELEGRAM_CHAT_ID
     then match fetched io with
          | Some price =>
              PriceAnalyzer.add_price (HypeBot.price_analyzer self) price
          | None => HypeBot.price_analyzer self
          end
     else HypeBot.price_analyzer self)
  /\ HypeBot.is_running after = HypeBot.is_running self.
Proof.
  unfold HypeBot.send_regular_update.
  destruct (truthy TELEGRAM_CHAT_ID) eqn:Hchat; cbn [negb]; [| auto].
  destruct (fetched io) as [price |]; [| auto].
  set (added := HypeBot.set_price_analyzer self _).
  set (analysis := PriceAnalyzer.get_analysis_summary lib _).
  destruct (Analysis.should_alert analysis).
  - pose proof (send_alert_frame TELEGRAM_CHAT_ID added analysis
                                 (alert_io io)) as (H1 & H2 & _).
    destruct (HypeBot.send_alert TELEGRAM_CHAT_ID added analysis
                                 (alert_io io)) as [after events].
    cbn [fst] in H1, H2.
    destruct (status_delivered io); cbn [fst]; rewrite H1, H2; auto.
  - destruct (status_delivered io); cbn [fst]; auto.
Qed.

Lemma status_messages_sent_app (a b : list Event) :
  status_messages_sent (a ++ b)
  = status_messages_sent a + status_messages_sent b.
Proof.
  unfold status_messages_sent. rewrite filter_app, length_app. lia.
Qed.

Lemma send_alert_no_status self (analysis : Analysis.t) (aio : AlertIO) :
  status_messages_sent
    (snd (HypeBot.send_alert TELEGRAM_CHAT_ID self analysis aio))
  = 0.
Proof.
  unfold HypeBot.send_alert.
  destruct (truthy TELEGRAM_CHAT_ID); cbn [negb]; [| reflexivity].
  unfold TelegramAlerter.send_voice_alert, TelegramAlerter.send_text_alert.
  repeat match goal with
    | |- context [if ?b then _ else _] => destruct b
    | |- context [match delivery ?w with _ => _ end] =>
        destruct (delivery w)
    end;
    reflexivity.
Qed.

(** X13: a cycle whose fetch succeeds records the price whatever happens
    next (an alert that fails, a status message that raises); it sends no
    alert and leaves the alerter alone unless the summary of the new
    history asks for an alert; and it sends the status message once when
    Telegram takes it, and never otherwise. *)
Theorem successful_cycle self io (price : R) :
  truthy TELEGRAM_CHAT_ID = true ->
  fetched io = Some price ->
  let recorded :=
    PriceAnalyzer.add_price (HypeBot.price_analyzer self) price in
  let analysis := PriceAnalyzer.get_analysis_summary lib recorded in
  let '(after, events) :=
    HypeBot.send_regular_update TELEGRAM_CHAT_ID lib self io in
  HypeBot.price_analyzer after = recorded
  /\ (Analysis.should_alert analysis = false ->
      HypeBot.telegram_alerter after = HypeBot.telegram_alerter self
      /\ alerts_delivered events = 0)
  /\ status_messages_sent events = (if status_delivered io then 1 else 0).
Proof.
  intros Hchat Hfetch recorded analysis.
  unfold HypeBot.send_regular_update.
  rewrite Hchat, Hfetch. cbn [negb].
  change (HypeBot.price_analyzer
            (HypeBot.set_price_analyzer
               self
               (PriceAnalyzer.add_price (HypeBot.price_analyzer self)
                                        price)))
    with recorded.
  fold recorded. fold analysis.
  set (added := HypeBot.set_price_analyzer self recorded).
  destruct (Analysis.should_alert analysis) eqn:Halert.
  - pose proof (send_alert_frame TELEGRAM_CHAT_ID added analysis
                                 (alert_io io)) as (H1 & _).
    pose proof (send_alert_no_status added analysis (alert_io io)) as H2.
    destruct (HypeBot.send_alert TELEGRAM_CHAT_ID added analysis
                                 (alert_io io)) as [after events].
    cbn [fst snd] in H1, H2.
    destruct (status_delivered io);
      (split; [exact H1 |]); (split; [discriminate |]);
      rewrite status_messages_sent_app, H2; reflexivity.
  - destruct (status_delivered io);
      (split; [reflexivity |]);
      (split; [intros _; split; reflexivity | reflexivity]).
Qed.

Lemma send_regular_update_no_sleep self io :
  filter is_sleep
         (snd (HypeBot.send_regular_update TELEGRAM_CHAT_ID lib self io))
  = [].
Proof.
  unfold HypeBot.send_regular_update, HypeBot.send_alert.
  unfold TelegramAlerter.send_voice_alert, TelegramAlerter.send_text_alert.
  repeat match goal with
    | |- context [if ?b then _ else _] => destruct b
    | |- context [match fetched ?w with _ => _ end] =>
        destruct (fetched w)
    | |- context [match delivery ?w with _ => _ end] =>
        destruct (delivery w)
    end;
    reflexivity.
Qed.

(** X14: over any run of cycles of a running bot with a configured chat,
    the history ends as the last 100 of the prices it had followed by the
    prices fetched, in order: a failed fetch leaves no trace in it, and
    nothing the channels do changes it.  The bot is still running at the
    end, and the loop has slept once per cycle, failed or not. *)
Theorem monitoring_history self cycles :
  truthy TELEGRAM_CHAT_ID = true ->
  HypeBot.is_running self = true ->
  length (PriceAnalyzer.price_history (HypeBot.price_analyzer self)) <= 100 ->
  let '(after, events) :=
    HypeBot.monitoring_loop TELEGRAM_CHAT_ID lib self cycles in
  PriceAnalyzer.price_history (HypeBot.price_analyzer after)
  = slice_last
      100
      (PriceAnalyzer.price_history (HypeBot.price_analyzer self)
         ++ fetched_prices cycles)
  /\ HypeBot.is_running after = true
  /\ length (filter is_sleep events) = length cycles.
Proof.
  intros Hchat. revert self.
  induction cycles as [| io cycles IH]; intros self Hrun Hlen.
  - cbn. rewrite app_nil_r. repeat split; auto.
    symmetry. apply slice_last_all. exact Hlen.
  - cbn [HypeBot.monitoring_loop]. rewrite Hrun.
    pose proof (send_regular_update_frame self io) as [Hhist Hflag].
    pose proof (send_regular_update_no_sleep self io) as Hquiet.
    rewrite Hchat in Hhist.
    destruct (HypeBot.send_regular_update TELEGRAM_CHAT_ID lib self io)
      as [next update_events].
    cbn [fst snd] in Hhist, Hflag, Hquiet.
    assert (Hnext :
             PriceAnalyzer.price_history (HypeBot.price_analyzer next)
             = slice_last
                 100
                 (PriceAnalyzer.price_history (HypeBot.price_analyzer self)
                    ++ match fetched io with
                       | Some price => [price]
                       | None => []
                       end)).
    { rewrite Hhist. destruct (fetched io) as [price |].
      - rewrite add_price_history. reflexivity.
      - rewrite app_nil_r. symmetry.
        apply slice_last_all. exact Hlen. }
    specialize (IH next).
    destruct (HypeBot.monitoring_loop TELEGRAM_CHAT_ID lib next cycles)
      as [after later_events].
    destruct IH as (IH1 & IH2 & IH3).
    + rewrite Hflag. exact Hrun.
    + rewrite Hnext, slice_last_length. lia.
    + split; [| split; [exact IH2 |]].
      * rewrite IH1, Hnext, slice_last_app, <- app_assoc.
        reflexivity.
      * rewrite filter_app, Hquiet. cbn. rewrite IH3. reflexivity.
Qed.

(** X15: the loop keeps no memory outside the bot: running it over two
    runs of cycles put end to end is running it over the first and then,
    from the bot that leaves, over the second, with the events of the two
    in that order. *)
Theorem monitoring_loop_app self (first later : list CycleIO) :
  HypeBot.monitoring_loop TELEGRAM_CHAT_ID lib self (first ++ later)
  = let '(midway, first_events) :=
      HypeBot.monitoring_loop TELEGRAM_CHAT_ID lib self first in
    let '(after, later_events) :=
      HypeBot.monitoring_loop TELEGRAM_CHAT_ID lib midway later in
    (after, first_events ++ later_events).
Proof.
  revert self. induction first as [| io first IH]; intros self.
  - cbn [app HypeBot.monitoring_loop].
    destruct (HypeBot.monitoring_loop TELEGRAM_CHAT_ID lib self later).
    reflexivity.
  - cbn [app HypeBot.monitoring_loop].
    destruct (HypeBot.is_running self) eqn:Hrun.
    + destruct (HypeBot.send_regular_update TELEGRAM_CHAT_ID lib self io)
        as [next update_events].
      rewrite IH.
      destruct (HypeBot.monitoring_loop TELEGRAM_CHAT_ID lib next first)
        as [midway first_events].
      destruct (HypeBot.monitoring_loop TELEGRAM_CHAT_ID lib midway later)
        as [after later_events].
      rewrite <- app_assoc. reflexivity.
    + destruct later as [| io' later]; cbn [HypeBot.monitoring_loop];
        [reflexivity | rewrite Hrun; reflexivity].
Qed.
End Cycles.

Lemma monitoring_history_witness :
  PriceAnalyzer.price_history
    (HypeBot.price_analyzer
       (fst (HypeBot.monitoring_loop
               sample_chat_id sample_lib
               (HypeBot.set_is_running HypeBot.init true) sample_cycles)))
  = [42; 40]%R.
Proof.
  pose proof (@monitoring_history
                sample_chat_id sample_lib
                (HypeBot.set_is_running HypeBot.init true) sample_cycles
                eq_refl eq_refl (Nat.le_0_l 100)) as H.
  destruct (HypeBot.monitoring_loop _ _ _ _) as [after events].
  destruct H as (H & _). exact H.
Defined.

Lemma send_alert_in_cooldown_witness :
  fst (HypeBot.send_alert
         sample_chat_id stamped_bot
         (PriceAnalyzer.get_analysis_summary sample_lib drop_below_target)
         prompt_alert)
  = stamped_bot.
Proof.
  pose proof (@send_alert_in_cooldown
                sample_chat_id stamped_bot
                (PriceAnalyzer.get_analysis_summary
                   sample_lib drop_below_target)
                prompt_alert 0%Z eq_refl) as H.
  destruct (Analysis.is_urgent
              (PriceAnalyzer.get_analysis_summary
                 sample_lib drop_below_target));
    (specialize (H ltac:(cbn; lia) ltac:(cbn; lia));
     destruct (HypeBot.send_alert _ _ _ _) as [after events];
     apply H).
Defined.

Lemma text_alert_after_failed_voice_witness :
  alerts_delivered
    (snd (HypeBot.send_alert
            sample_chat_id HypeBot.init
            (PriceAnalyzer.get_analysis_summary
               sample_lib drop_below_target)
            voice_down_alert))
  = 1.
Proof.
  pose proof (@text_alert_after_failed_voice
                sample_chat_id HypeBot.init
                (PriceAnalyzer.get_analysis_summary
                   sample_lib drop_below_target)
                voice_down_alert 500000%Z
                eq_refl eq_refl eq_refl eq_refl eq_refl) as H.
  destruct (HypeBot.send_alert _ _ _ _) as [after events].
  apply H.
Defined.

Lemma successful_cycle_witness :
  HypeBot.price_analyzer
    (fst (HypeBot.send_regular_update
            sample_chat_id sample_lib HypeBot.init (prompt_cycle 42)))
  = PriceAnalyzer.add_price PriceAnalyzer.default 42.
Proof.
  pose proof (@successful_cycle
                sample_chat_id sample_lib HypeBot.init (prompt_cycle 42)
                42%R eq_refl eq_refl) as H.
  cbv zeta in H.
  destruct (HypeBot.send_regular_update _ _ _ _) as [after events].
  apply H.
Defined.

(** ** Commands *)

(** What [run_steps] lets through is a prefix of the steps. *)
Lemma run_steps_prefix (steps : list CommandEvent) (answers : list bool) :
  exists rest, steps = fst (fst (run_steps steps answers)) ++ rest.
Proof.
  revert answers. induction steps as [| step steps IH]; intros answers.
  - exists []. reflexivity.
  - destruct step as [r | |e]; cbn [run_steps].
    + destruct answers as [| [|] answers].
      * destruct (IH []) as [rest Hrest].
        destruct (run_steps steps []) as [[events raised] left].
        exists rest. cbn in *. congruence.
      * destruct (IH answers) as [rest Hrest].
        destruct (run_steps steps answers) as [[events raised] left].
        exists rest. cbn in *. congruence.
      * exists (reply_text r :: steps). reflexivity.
    + destruct (IH answers) as [rest Hrest].
      destruct (run_steps steps answers) as [[events raised] left].
      exists rest. cbn in *. congruence.
    + destruct (IH answers) as [rest Hrest].
      destruct (run_steps steps answers) as [[events raised] left].
      exists rest. cbn in *. congruence.
Qed.

Lemma run_steps_In (steps : list CommandEvent) (answers : list bool)
      (e : CommandEvent) :
  In e (fst (fst (run_steps steps answers))) -> In e steps.
Proof.
  intros H. destruct (run_steps_prefix steps answers) as [rest Hrest].
  rewrite Hrest. apply in_or_app. now left.
Qed.

(** The events of a command: those let through, and on an exception the
    logged error and maybe the error reply. *)
Lemma handle_error_In
      (line : String.string) (reply : Reply) (events : list CommandEvent)
      (raised : bool) (answers : list bool) (e : CommandEvent) :
  In e (fst (handle_error line reply events raised answers)) ->
  In e events \/ e = logged (log_error line) \/ e = reply_text reply.
Proof.
  unfold handle_error. destruct raised; [| auto].
  cbn [run_steps]. destruct answers as [| [|] answers]; cbn;
    rewrite in_app_iff; cbn; intuition auto.
Qed.

Ltac split_cases :=
  repeat match goal with
    | H : _ \/ _ |- _ => destruct H
    end.

(** X16: the status command records the fetched price in the history as
    a monitoring cycle does, also when its answers cannot be sent, and
    leaves the history alone when the fetch fails; whatever the summary
    says, it sends no alert and no test voice, and does not touch the
    alerter; and an exception leaves it only when both its answer and its
    error message are refused. *)
Theorem status_command_records_price
  (lib : MathLib) (self : HypeBot.t) (io : CommandIO) :
  let '(after, events, raised) := Commands.status_command lib self io in
  PriceAnalyzer.price_history (HypeBot.price_analyzer after)
  = match command_fetched io with
    | Some price =>
        slice_last
          100
          (PriceAnalyzer.price_history (HypeBot.price_analyzer self)
             ++ [price])
    | None => PriceAnalyzer.price_history (HypeBot.price_analyzer self)
    end
  /\ HypeBot.telegram_alerter after = HypeBot.telegram_alerter self
  /\ (forall e, In (logged e) events -> is_alert e = false)
  /\ ~ In send_test_voice events
  /\ (raised = true
      <-> exists rest, replies_delivered io = false :: false :: rest).
Proof.
  unfold Commands.status_command.
  destruct (command_fetched io) as [price |]; cbn [run_steps];
    destruct (replies_delivered io) as [| [|] [| [|] rest]];
    cbn [handle_error run_steps app];
    (split; [first [apply add_price_history | reflexivity] |]);
    (split; [reflexivity |]);
    (split; [cbn; intros e H; split_cases;
             try discriminate; try contradiction;
             match goal with
             | H : logged _ = logged _ |- _ =>
                 injection H as <-; reflexivity
             end |]);
    (split; [cbn; intros H; split_cases;
             try discriminate; contradiction |]);
    split; intros H; try discriminate; try reflexivity;
    try match goal with
      | H : exists _, _ |- _ => destruct H as [? H]; discriminate
      end;
    eexists; reflexivity.
Qed.

(** X17: the test voice command sends its voice message only when the
    gate is open to a non-urgent alert at that instant, so that after any
    stamped alert, urgent or not, it is refused for the 5 minutes of the
    standard cooldown; with every answer taken, a refusal is the cooldown
    answer alone, and otherwise the announcement, the voice message and
    the confirmation follow in that order.  It never stamps the alerter:
    the bot leaves it as it entered. *)
Theorem test_voice_command_gate (self : HypeBot.t) (io : CommandIO) :
  let alerter := HypeBot.telegram_alerter self in
  let ready :=
    TelegramAlerter.can_send_alert alerter false (command_now io) in
  let '(after, events, raised) := Commands.test_voice_command self io in
  after = self
  /\ (In send_test_voice events ->
      ready = true /\ test_voice_delivered io = true)
  /\ (forall t,
         TelegramAlerter.last_alert_time alerter = Some t ->
         (command_now io < t + cooldown false)%Z ->
         ~ In send_test_voice events)
  /\ (replies_delivered io = [] ->
      raised = false
      /\ events
         = if ready
           then if test_voice_delivered io
                then [reply_text sending_test_voice_reply;
                      send_test_voice;
                      logged
                        (log_info "Test voice message sent successfully");
                      reply_text test_voice_sent_reply]
                else [reply_text sending_test_voice_reply;
                      logged
                        (log_error "Failed to send test voice message");
                      reply_text test_voice_failed_reply]
           else [reply_text
                   (voice_cooldown_reply config.ALERT_COOLDOWN_MINUTES)]).
Proof.
  intros alerter ready. unfold Commands.test_voice_command.
  cbn [get_alert_status AlertStatus.tts_configured
       AlertStatus.voice_enabled AlertStatus.can_send_alert
       AlertStatus.cooldown_minutes config.ENABLE_VOICE_MESSAGES negb].
  fold alerter. fold ready.
  set (steps := if negb ready then _ else _).
  assert (Hsteps : In send_test_voice steps ->
                   ready = true /\ test_voice_delivered io = true).
  { unfold steps. destruct ready; cbn [negb].
    - unfold test_voice_message. destruct (test_voice_delivered io).
      + auto.
      + cbn. intros H. split_cases; try discriminate; contradiction.
    - cbn. intros H. split_cases; try discriminate; contradiction. }
  assert (Hsent :
           In send_test_voice
              (fst (let '(events, raised, answers) :=
                      run_steps steps (replies_delivered io) in
                    handle_error "Error in test voice command"
                                 error_test_voice_reply events raised
                                 answers)) ->
           ready = true /\ test_voice_delivered io = true).
  { intros H. apply Hsteps.
    pose proof (run_steps_In steps (replies_delivered io) send_test_voice)
      as Hin.
    destruct (run_steps steps (replies_delivered io))
      as [[events raised] answers].
    apply handle_error_In in H. cbn [fst] in Hin.
    destruct H as [H | [H | H]]; [auto | discriminate | discriminate]. }
  assert (Hall :
           replies_delivered io = [] ->
           run_steps steps (replies_delivered io) = (steps, false, [])).
  { intros ->. unfold steps. destruct ready; cbn [negb];
      [| reflexivity].
    unfold test_voice_message.
    destruct (test_voice_delivered io); reflexivity. }
  destruct (run_steps steps (replies_delivered io))
    as [[events raised] answers] eqn:Erun.
  destruct (handle_error "Error in test voice command"
                         error_test_voice_reply events raised answers)
    as [events' raised'] eqn:Eerr.
  cbn [fst] in Hsent.
  split; [reflexivity |]. split; [exact Hsent |]. split.
  - intros t Ht Hnow Hin. destruct (Hsent Hin) as [Hready _].
    unfold ready in Hready.
    rewrite (@can_send_alert_cooling alerter false t _ Ht Hnow) in Hready.
    discriminate.
  - intros Hreplies. specialize (Hall Hreplies).
    injection Hall as -> -> ->. cbn [handle_error] in Eerr.
    injection Eerr as <- <-. split; [reflexivity |].
    unfold steps. destruct ready; cbn [negb]; [| reflexivity].
    unfold test_voice_message.
    destruct (test_voice_delivered io); reflexivity.
Qed.

Lemma test_voice_command_gate_witness :
  ~ In send_test_voice
       (snd (fst (Commands.test_voice_command stamped_bot prompt_command))).
Proof.
  pose proof (test_voice_command_gate stamped_bot prompt_command) as H.
  cbv zeta in H.
  destruct (Commands.test_voice_command stamped_bot prompt_command)
    as [[after events] raised].
  destruct H as (_ & _ & H & _).
  apply (H 0%Z eq_refl). cbn. lia.
Defined.

(** * The price client *)

Section Client.
Variable float_of_str : String.string -> option R.
Local Open Scope R_scope.

Lemma mid_price_positive (price_data : json) (price : R) :
  HyperliquidClient.mid_price float_of_str price_data = Some price ->
  exists best_bid best_ask,
    0 < best_bid /\ 0 < best_ask /\ price = (best_bid + best_ask) / 2.
Proof.
  unfold HyperliquidClient.mid_price.
  destruct price_data as [| | | | |entries]; try discriminate.
  destruct (py.lookup "levels" entries) as [[| | | |[| first more] |] |];
    try discriminate.
  destruct (py.truth first); [| discriminate].
  destruct (py.index first 0) as [bid |]; [| discriminate].
  destruct (py.float float_of_str bid) as [best_bid |]; [| discriminate].
  destruct (py.index first 1) as [ask |]; [| discriminate].
  destruct (py.float float_of_str ask) as [best_ask |]; [| discriminate].
  destruct (Rltb 0 best_bid) eqn:Hbid; [| discriminate].
  destruct (Rltb 0 best_ask) eqn:Hask; [| discriminate].
  cbn [andb]. intros H. injection H as <-.
  apply Rltb_lt in Hbid. apply Rltb_lt in Hask.
  exists best_bid, best_ask. auto.
Qed.

Lemma get_asset_price_mid
      (asset_name : String.string)
      (meta_response price_response : option json) (price : R) :
  HyperliquidClient.get_asset_price
    float_of_str asset_name meta_response price_response
  = Some price ->
  exists price_data,
    price_response = Some price_data
    /\ HyperliquidClient.mid_price float_of_str price_data = Some price.
Proof.
  unfold HyperliquidClient.get_asset_price.
  destruct meta_response as [[| | | | |entries] |]; try discriminate.
  destruct (py.iterate _) as [assets |]; [| discriminate].
  destruct (HyperliquidClient.find_asset asset_name assets)
    as [[asset_info |] |]; try discriminate.
  destruct price_response as [price_data |]; [| discriminate].
  intros H. exists price_data. auto.
Qed.


(** X19: a price needs the first two items of the first level to be
    numbers, booleans or strings: when the first level is a list whose
    item 0 is an object, a list or null, no price is returned, whatever
    the rest of the two replies. *)
Theorem get_asset_price_needs_scalars
  (asset_name : String.string) (meta_response : option json)
  (entries : list (String.string * json))
  (bid : json) (items levels : list json) :
  py.lookup "levels" entries = Some (JArr (JArr (bid :: items) :: levels)) ->
  (bid = JNull \/ (exists l, bid = JArr l) \/ (exists o, bid = JObj o)) ->
  HyperliquidClient.get_asset_price
    float_of_str asset_name meta_response (Some (JObj entries))
  = None.
Proof.
  intros Hlevels Hbid.
  destruct (HyperliquidClient.get_asset_price
              float_of_str asset_name meta_response (Some (JObj entries)))
    as [price |] eqn:E; [| reflexivity].
  apply get_asset_price_mid in E.
  destruct E as (price_data & Hdata & Hmid).
  injection Hdata as <-.
  unfold HyperliquidClient.mid_price in Hmid. rewrite Hlevels in Hmid.
  cbn [py.truth py.index nth_error] in Hmid.
  destruct Hbid as [-> | [[l ->] | [o ->]]]; cbn [py.float] in Hmid;
    discriminate.
Qed.

(** X20: [get_price_history] never returns more than 10 prices, however
    many are asked for, nor more than were asked for; it returns none for
    a limit of 0 or less; and every price it returns is strictly
    positive. *)
Theorem get_price_history_bounds
  (asset_name : String.string) (limit : Z)
  (answers : nat -> option json * option json) :
  let prices :=
    HyperliquidClient.get_price_history
      float_of_str asset_name limit answers in
  (length prices <= 10)%nat
  /\ (Z.of_nat (length prices) <= Z.max 0 limit)%Z
  /\ ((limit <= 0)%Z -> prices = [])
  /\ (forall price, In price prices -> 0 < price).
Proof.
  intros prices. unfold prices, HyperliquidClient.get_price_history.
  set (round := fun i : nat => _).
  assert (Hround : forall i, (length (round i) <= 1)%nat).
  { intros i. unfold round.
    destruct (HyperliquidClient.get_asset_price _ _ _ _) as [price |];
      [destruct (Reqb price 0) |]; simpl; lia. }
  assert (Hlen : forall l : list nat,
             (length (flat_map round l) <= length l)%nat).
  { induction l as [| i l IH]; [simpl; lia |].
    cbn [flat_map]. rewrite length_app. specialize (Hround i).
    cbn [length]. lia. }
  specialize (Hlen (seq 0 (Z.to_nat (Z.min limit 10)))).
  rewrite length_seq in Hlen.
  split; [lia |]. split; [lia |]. split.
  - intros Hlimit.
    replace (Z.to_nat (Z.min limit 10)) with 0%nat by lia. reflexivity.
  - intros price Hin. apply in_flat_map in Hin.
    destruct Hin as (i & _ & Hin). unfold round in Hin.
    destruct (HyperliquidClient.get_asset_price _ _ _ _)
      as [fetched_price |] eqn:E; [| contradiction].
    destruct (Reqb fetched_price 0); [contradiction |].
    destruct Hin as [<- | []].
    apply get_asset_price_mid in E. destruct E as (d & _ & E).
    apply mid_price_positive in E.
    destruct E as (b & a & Hb & Ha & ->). lra.
Qed.
End Client.



Lemma get_asset_price_needs_scalars_witness :
  HyperliquidClient.get_asset_price
    no_float_of_str "SOL" (Some sample_meta) (Some object_book)
  = None.
Proof.
  apply (@get_asset_price_needs_scalars
           no_float_of_str "SOL" (Some sample_meta)
           [("levels",
             JArr [JArr [JObj [("px", JStr "41.0"); ("sz", JStr "10")]];
                   JArr [JObj [("px", JStr "42.0"); ("sz", JStr "12")]]])]
           (JObj [("px", JStr "41.0"); ("sz", JStr "10")])
           []
           [JArr [JObj [("px", JStr "42.0"); ("sz", JStr "12")]]]).
  - reflexivity.
  - right. right. eexists. reflexivity.
Defined.

Lemma get_price_history_bounds_witness :
  length (HyperliquidClient.get_price_history
            no_float_of_str "SOL" 100 steady_answers)
  <= 10
  /\ HyperliquidClient.get_price_history
       no_float_of_str "SOL" (-3) steady_answers
     = [].
Proof.
  split.
  - apply (get_price_history_bounds
             no_float_of_str "SOL" 100 steady_answers).
  - destruct (get_price_history_bounds
                no_float_of_str "SOL" (-3) steady_answers)
      as (_ & _ & H & _).
    apply H. lia.
Defined.

(** * Order in the history *)


Section Order.
Local Open Scope R_scope.
Implicit Types (l : list R).

End Order.

